(** * pdf2sents: the [Pipeline] of [pdf2sents/pipeline.py]

    A shallow embedding of [PipelineStepConfig], [PipelineConfig] and
    [Pipeline] ([__init__], [__call__], [run]).  The parser, the rasterizer,
    the predictors ([mmda]'s and the package's own word and type
    predictors), [mmda]'s [Document], [springs]' [init.now] and
    [cached_path] are defined outside this file: they are taken as an
    interface ([Externals]) whose operations may read and change the
    interpreter's state and may raise.  What Python's [warnings] module and
    [torch.no_grad] do to the filter list and to the grad mode is written
    out, since [run] uses both as context managers. *)

From Stdlib Require Import List String Ascii Bool ZArith Lia Sorted.
Import ListNotations.
Local Open Scope string_scope.
Local Open Scope list_scope.

Set Implicit Arguments.

(** ** Python's [warnings] filters *)

Module Warnings.

Inductive Action := Adefault | Aerror | Aignore | Aalways | Amodule | Aonce.

(** The built-in warning categories; [Warning] is their base class. *)
Inductive Category :=
| Warning | UserWarning | DeprecationWarning | PendingDeprecationWarning
| SyntaxWarning | RuntimeWarning | FutureWarning | ImportWarning
| UnicodeWarning | BytesWarning | ResourceWarning.

Definition Category_eqb (a b : Category) : bool :=
  match a, b with
  | Warning, Warning | UserWarning, UserWarning
  | DeprecationWarning, DeprecationWarning
  | PendingDeprecationWarning, PendingDeprecationWarning
  | SyntaxWarning, SyntaxWarning | RuntimeWarning, RuntimeWarning
  | FutureWarning, FutureWarning | ImportWarning, ImportWarning
  | UnicodeWarning, UnicodeWarning | BytesWarning, BytesWarning
  | ResourceWarning, ResourceWarning => true
  | _, _ => false
  end.

(** [issubclass c base] on the built-in categories. *)
Definition issubclass (c base : Category) : bool :=
  match base with
  | Warning => true
  | _ => Category_eqb c base
  end.

(** An entry of [warnings.filters]:
    [(action, message, category, module, lineno)]; a pattern that is
    [None] matches every text, line 0 matches every line.  A pattern is
    kept as the literal text it has to start with (no regular expression
    operator is interpreted); the message pattern is compared without
    regard to case, as [filterwarnings] compiles it with [re.I], the module
    pattern with regard to it. *)
Record Filter := mkFilter {
  f_action : Action;
  f_message : option string;
  f_category : Category;
  f_module : option string;
  f_lineno : nat }.

(** A warning as [warnings.warn] hands it to the filters. *)
Record Issued := mkIssued {
  w_text : string;
  w_category : Category;
  w_module : string;
  w_lineno : nat }.

Definition Filter_eq_dec (a b : Filter) : {a = b} + {a <> b}.
Proof.
  repeat decide equality; try apply string_dec; try apply Ascii.ascii_dec.
Defined.

Definition pattern_matches (p : option string) (s : string) : bool :=
  match p with
  | None => true
  | Some pre => String.prefix pre s
  end.

(** ASCII lower case. *)
Definition lower_ascii (c : ascii) : ascii :=
  let n := nat_of_ascii c in
  if Nat.leb 65 n && Nat.leb n 90 then ascii_of_nat (n + 32) else c.

Fixpoint lower (s : string) : string :=
  match s with
  | EmptyString => EmptyString
  | String c rest => String (lower_ascii c) (lower rest)
  end.

Definition message_matches (p : option string) (text : string) : bool :=
  match p with
  | None => true
  | Some pre => String.prefix (lower pre) (lower text)
  end.

Definition matches (f : Filter) (w : Issued) : bool :=
  message_matches (f_message f) (w_text w)
  && issubclass (w_category w) (f_category f)
  && pattern_matches (f_module f) (w_module w)
  && (Nat.eqb (f_lineno f) 0 || Nat.eqb (f_lineno f) (w_lineno w)).

(** The action of the first filter that matches; [defaultaction] is
    ["default"]. *)
Fixpoint action_for (fs : list Filter) (w : Issued) : Action :=
  match fs with
  | [] => Adefault
  | f :: rest => if matches f w then f_action f else action_for rest w
  end.

(** [filters.remove(item)] inside a [try]: the first equal entry goes. *)
Fixpoint remove_first (item : Filter) (fs : list Filter) : list Filter :=
  match fs with
  | [] => []
  | f :: rest =>
      if Filter_eq_dec item f then rest else f :: remove_first item rest
  end.

(** [simplefilter(action)]: [category=Warning], [lineno=0],
    [append=False]; the entry is moved, or put, in front. *)
Definition simple_item (a : Action) : Filter := mkFilter a None Warning None 0.

Definition add_front (item : Filter) (fs : list Filter) : list Filter :=
  item :: remove_first item fs.

(** A key of a warning registry, [(text, category, lineno)], and a
    module's [__warningregistry__]: its ['version'] entry (0 when it has
    none) and the keys that are set in it. *)
Definition Key : Type := (string * Category * nat)%type.

Definition Key_eqb (a b : Key) : bool :=
  match a, b with
  | (text, category, lineno), (text', category', lineno') =>
      String.eqb text text' && Category_eqb category category'
      && Nat.eqb lineno lineno'
  end.

Record Registry := mkRegistry {
  r_version : nat;
  r_keys : list Key }.

(** The registries of the modules, by module name. *)
Definition registry_of (module : string) (rs : list (string * Registry))
  : Registry :=
  match find (fun r => String.eqb module (fst r)) rs with
  | Some r => snd r
  | None => mkRegistry 0 []
  end.

Fixpoint set_registry (module : string) (r : Registry)
    (rs : list (string * Registry)) : list (string * Registry) :=
  match rs with
  | [] => [(module, r)]
  | (module', r') :: rest =>
      if String.eqb module module'
      then (module, r) :: rest
      else (module', r') :: set_registry module r rest
  end.

(** [warnings.showwarning] and [warnings._showwarnmsg_impl]: the functions
    that are installed, each by its identity. *)
Definition Hooks : Type := (nat * nat)%type.

End Warnings.
Import Warnings.

(** ** Exceptions, the interpreter state and the effect monad *)

(** A raised exception: one that a collaborator raises, named by its class
    and text, or a warning turned into an exception by an ["error"] filter. *)
Inductive Exc :=
| Raised (cls msg : string)
| WarningAsError (w : Issued).

(** The state a call can see and change: of the [warnings] module, the
    filter list, the counter [_filters_version] that is incremented
    whenever the list is changed, and the two hooks that show a warning;
    torch's grad mode; the modules' warning registries and the
    [onceregistry]; the warnings that were let through to the hooks; and the
    rest of the world [X] (heap objects such as the document, the file
    cache). *)
Record Env (X : Type) := mkEnv {
  filters : list Filter;
  filters_version : nat;
  hooks : Hooks;
  grad_enabled : bool;
  registries : list (string * Registry);
  onceregistry : list (string * Category);
  shown : list Issued;
  ext : X }.

Arguments mkEnv {X}.

Definition set_filters {X} (fs : list Filter) (e : Env X) : Env X :=
  mkEnv fs (filters_version e) (hooks e) (grad_enabled e) (registries e)
        (onceregistry e) (shown e) (ext e).

Definition set_hooks {X} (h : Hooks) (e : Env X) : Env X :=
  mkEnv (filters e) (filters_version e) h (grad_enabled e) (registries e)
        (onceregistry e) (shown e) (ext e).

Definition set_grad_enabled {X} (b : bool) (e : Env X) : Env X :=
  mkEnv (filters e) (filters_version e) (hooks e) b (registries e)
        (onceregistry e) (shown e) (ext e).

(** [warnings._filters_mutated()]. *)
Definition filters_mutated {X} (e : Env X) : Env X :=
  mkEnv (filters e) (S (filters_version e)) (hooks e) (grad_enabled e)
        (registries e) (onceregistry e) (shown e) (ext e).

Definition set_registries {X} (rs : list (string * Registry)) (e : Env X)
  : Env X :=
  mkEnv (filters e) (filters_version e) (hooks e) (grad_enabled e) rs
        (onceregistry e) (shown e) (ext e).

Definition set_onceregistry {X} (o : list (string * Category)) (e : Env X)
  : Env X :=
  mkEnv (filters e) (filters_version e) (hooks e) (grad_enabled e)
        (registries e) o (shown e) (ext e).

(** [_showwarnmsg(msg)]: the warning goes to the hooks. *)
Definition showwarnmsg {X} (w : Issued) (e : Env X) : Env X :=
  mkEnv (filters e) (filters_version e) (hooks e) (grad_enabled e)
        (registries e) (onceregistry e) (shown e ++ [w]) (ext e).

Definition Result (A : Type) : Type := (Exc + A)%type.

(** An external call: it may raise, and the state it leaves is kept either
    way. *)
Definition Ext (X A : Type) : Type := Env X -> Result A * Env X.

(** [warnings.warn], as [warn_explicit] of [warnings.py] has it.  The
    registry of the warning's module is cleared and stamped when its version
    is not the filters version; a warning whose key it holds is dropped;
    otherwise the first matching filter decides: ["ignore"] drops the
    warning, ["error"] raises it, the other actions set the key (but
    ["always"]) and show the warning, unless ["once"] or ["module"] find it
    shown before. *)
Definition warn {X} (w : Issued) : Ext X unit :=
  fun e =>
    let r := registry_of (w_module w) (registries e) in
    let held :=
      if Nat.eqb (r_version r) (filters_version e) then r_keys r else [] in
    let registered (ks : list Key) : Env X :=
      set_registries
        (set_registry (w_module w) (mkRegistry (filters_version e) ks)
                      (registries e)) e in
    let key := (w_text w, w_category w, w_lineno w) in
    let altkey := (w_text w, w_category w, 0) in
    if existsb (Key_eqb key) held then (inr tt, registered held)
    else
      match action_for (filters e) w with
      | Aignore => (inr tt, registered held)
      | Aerror => (inl (WarningAsError w), registered held)
      | Aonce =>
          if existsb (fun o => String.eqb (w_text w) (fst o)
                               && Category_eqb (w_category w) (snd o))
                     (onceregistry e)
          then (inr tt, registered (key :: held))
          else (inr tt,
                showwarnmsg w
                  (set_onceregistry ((w_text w, w_category w) :: onceregistry e)
                                    (registered (key :: held))))
      | Aalways => (inr tt, showwarnmsg w (registered held))
      | Amodule =>
          if existsb (Key_eqb altkey) (key :: held)
          then (inr tt, registered (key :: held))
          else (inr tt, showwarnmsg w (registered (altkey :: key :: held)))
      | Adefault => (inr tt, showwarnmsg w (registered (key :: held)))
      end.

(** ** Paths and configuration records *)

(** [Union[Path, str]]: a path given as text or as a [pathlib.Path]. *)
Inductive PathLike :=
| AsStr (s : string)
| AsPath (s : string).

(** The callables that the module names as [_target_] or as the type handed
    to [sp.init.now]. *)
Inductive Target :=
| PDFPlumberParser
| PDF2ImageRasterizer
| LayoutParserPredictor
| LayoutParserPredictor_from_pretrained
| ExtendedDictionaryWordPredictor
| PysbdSentenceBoundaryPredictor
| TypedBlockPredictor
| TypedSentencesPredictor.

(** [@sp.make_flexy @dataclass class PipelineStepConfig]: the [_target_]
    field, [sp.MISSING] ([None]) unless given, and, the class being flexy,
    any further keyword parameters, in the order they were written. *)
Record PipelineStepConfig := mkStep {
  _target_ : option string;
  params : list (string * string) }.

Inductive Stage :=
| Sparser | Srasterizer | Slayout | Swords | Ssents | Sblocks_type | Ssents_type.

Definition Stage_eq_dec (a b : Stage) : {a = b} + {a <> b}.
Proof. decide equality. Defined.

Module PipelineConfig.
(** The seven fields, in the order the dataclass declares them. *)
Record t := mk {
  parser : PipelineStepConfig;
  rasterizer : PipelineStepConfig;
  layout : PipelineStepConfig;
  sents : PipelineStepConfig;
  words : PipelineStepConfig;
  blocks_type : PipelineStepConfig;
  sents_type : PipelineStepConfig }.

Definition step (s : Stage) (c : t) : PipelineStepConfig :=
  match s with
  | Sparser => parser c
  | Srasterizer => rasterizer c
  | Slayout => layout c
  | Swords => words c
  | Ssents => sents c
  | Sblocks_type => blocks_type c
  | Ssents_type => sents_type c
  end.
End PipelineConfig.

(** What [annotate_images] and [annotate] attach under a layer name. *)
Inductive Payload (Images Annotations : Type) :=
| PImages (im : Images)
| PAnnotations (a : Annotations).

Arguments PImages {Images Annotations}.
Arguments PAnnotations {Images Annotations}.

(** ** The imported collaborators *)

Class Externals := {
  X : Type;            (* the world outside the filters and the grad mode *)
  Obj : Type;          (* an object built by [sp.init.now] *)
  Document : Type;     (* a reference to an [mmda] [Document] *)
  Images : Type;
  Annotations : Type;
  (* pathlib: the text [Path(s)] keeps of [s] *)
  pathlib_norm : string -> string;
  (* [sp.Target.to_string] *)
  Target_to_string : Target -> string;
  (* [@dataclass]: the exception it raises for a field whose default is a
     [PipelineStepConfig] instance, when this interpreter's [dataclasses]
     refuses such a default (from Python 3.11 on it refuses an instance of
     an unhashable class, as of a dataclass with [eq] that is not frozen:
     [ValueError], mutable default, use default_factory); [None] when it
     accepts it *)
  dataclass_refusal : option Exc;
  cached_path : PathLike -> Ext X PathLike;
  (* [sp.init.now(config, type)] *)
  init_now : PipelineStepConfig -> Target -> Ext X Obj;
  (* [obj.parse(path)] *)
  parse : Obj -> string -> Ext X Document;
  (* [obj.rasterize(path, dpi=dpi)] *)
  rasterize : Obj -> string -> Z -> Ext X Images;
  (* [obj.predict(doc)] *)
  predict : Obj -> Document -> Ext X Annotations;
  (* [doc.annotate_images(images)] *)
  annotate_images : Document -> Images -> Ext X unit;
  (* [doc.annotate(name=annotations)] *)
  annotate : Document -> string -> Annotations -> Ext X unit;
  (* the layer a document carries under a name, in a given world *)
  layer : X -> Document -> string -> option (Payload Images Annotations) }.

(** [Path(p)] and [str(p)]. *)
Definition Path `{Externals} (p : PathLike) : PathLike :=
  match p with
  | AsStr s => AsPath (pathlib_norm s)
  | AsPath s => AsPath s
  end.

Definition str (p : PathLike) : string :=
  match p with
  | AsStr s => s
  | AsPath s => s
  end.

Section Effects.
Context `{E : Externals}.

(** *** Calls and the history of a computation *)

(** The calls the module makes to its collaborators.  A [predict] and an
    [init.now] call carry the attribute of [self] or of the configuration
    they are made for. *)
Inductive Call :=
| CCachedPath (p : PathLike)
| CInitNow (s : Stage) (c : PipelineStepConfig) (t : Target)
| CParse (o : Obj) (path : string)
| CRasterize (o : Obj) (path : string) (dpi : Z)
| CAnnotateImages (d : Document) (im : Images)
| CPredict (s : Stage) (o : Obj) (d : Document)
| CAnnotate (d : Document) (name : string) (a : Annotations).

(** What a call returns. *)
Inductive Value :=
| VPath (p : PathLike)
| VObj (o : Obj)
| VDocument (d : Document)
| VImages (im : Images)
| VAnnotations (a : Annotations)
| VNone.

(** One call as it happened: the state it started in, what it returned or
    raised, and the state it left. *)
Record Event := mkEvent {
  ev_call : Call;
  ev_pre : Env X;
  ev_result : Result Value;
  ev_post : Env X }.

(** A computation of the module: a result or an exception, the state left
    behind, and the calls made, oldest first. *)
Definition M (A : Type) : Type := Env X -> Result A * Env X * list Event.

Definition ret {A} (a : A) : M A := fun e => (inr a, e, []).

Definition raise {A} (x : Exc) : M A := fun e => (inl x, e, []).

Definition bind {A B} (m : M A) (k : A -> M B) : M B :=
  fun e =>
    match m e with
    | (inl x, e1, t1) => (inl x, e1, t1)
    | (inr a, e1, t1) =>
        match k a e1 with
        | (r, e2, t2) => (r, e2, t1 ++ t2)
        end
    end.

Definition as_value {A} (inj : A -> Value) (r : Result A) : Result Value :=
  match r with
  | inl x => inl x
  | inr a => inr (inj a)
  end.

(** Make a call and record it. *)
Definition call {A} (c : Call) (inj : A -> Value) (f : Ext X A) : M A :=
  fun e =>
    match f e with
    | (r, e') => (r, e', [mkEvent c e (as_value inj r) e'])
    end.

(** [with warnings.catch_warnings(): body]: on entry the filter list is
    saved and replaced by a copy, the filters are marked as changed and the
    two hooks are saved; on exit, whether [body] returns or raises, the
    saved list is put back, the filters are marked as changed and the saved
    hooks are put back.  [__exit__] returns [None], so an exception goes
    on. *)
Definition catch_warnings {A} (body : M A) : M A :=
  fun e =>
    let saved := filters e in
    let saved_hooks := hooks e in
    match body (filters_mutated e) with
    | (r, e1, t) =>
        (r, set_hooks saved_hooks (filters_mutated (set_filters saved e1)), t)
    end.

(** [with torch.no_grad(): body]: the grad mode is saved and switched off
    on entry and put back on exit. *)
Definition no_grad {A} (body : M A) : M A :=
  fun e =>
    let prev := grad_enabled e in
    match body (set_grad_enabled false e) with
    | (r, e1, t) => (r, set_grad_enabled prev e1, t)
    end.

(** [warnings.simplefilter(action)]. *)
Definition simplefilter (a : Action) : M unit :=
  fun e =>
    (inr tt,
     filters_mutated (set_filters (add_front (simple_item a) (filters e)) e),
     []).

End Effects.

Declare Scope pipeline_scope.
Delimit Scope pipeline_scope with pipeline.
Notation "x <- m ;; k" := (bind m (fun x => k))
  (at level 61, m at next level, right associativity) : pipeline_scope.
Notation "m ;; k" := (bind m (fun _ => k))
  (at level 61, right associativity) : pipeline_scope.

(** ** The module: [PipelineConfig], [Pipeline] *)

Section Code.
Context `{E : Externals}.
Local Open Scope pipeline_scope.

(** The collaborators' calls, recorded. *)
Definition do_cached_path (p : PathLike) : M PathLike :=
  call (CCachedPath p) VPath (cached_path p).
Definition do_init_now (s : Stage) (c : PipelineStepConfig) (t : Target) : M Obj :=
  call (CInitNow s c t) VObj (init_now c t).
Definition do_parse (o : Obj) (path : string) : M Document :=
  call (CParse o path) VDocument (parse o path).
Definition do_rasterize (o : Obj) (path : string) (dpi : Z) : M Images :=
  call (CRasterize o path dpi) VImages (rasterize o path dpi).
Definition do_annotate_images (d : Document) (im : Images) : M unit :=
  call (CAnnotateImages d im) (fun _ => VNone) (annotate_images d im).
Definition do_predict (s : Stage) (o : Obj) (d : Document) : M Annotations :=
  call (CPredict s o d) VAnnotations (predict o d).
Definition do_annotate (d : Document) (name : string) (a : Annotations) : M unit :=
  call (CAnnotate d name a) (fun _ => VNone) (annotate d name a).

Definition words_url : string :=
  "https://github.com/dwyl/english-words/raw/master/words.txt".

(** [class PipelineConfig] under [@dataclass]: the body computes the seven
    default values, once, when the class is defined, and fetches the
    dictionary there; then the decorator goes through the fields.  [parser],
    [rasterizer], [sents], [blocks_type] and [sents_type] have a
    [PipelineStepConfig] instance as default, which the decorator accepts
    or refuses ([layout] and [words] are made by [sp.flexy_field]). *)
Definition PipelineConfig_defaults : M PipelineConfig.t :=
  let parser := mkStep (Some (Target_to_string PDFPlumberParser)) [] in
  let rasterizer := mkStep (Some (Target_to_string PDF2ImageRasterizer)) [] in
  let layout :=
    mkStep (Some (Target_to_string LayoutParserPredictor_from_pretrained))
           [("config_path", "lp://efficientdet/PubLayNet")] in
  let sents := mkStep (Some (Target_to_string PysbdSentenceBoundaryPredictor)) [] in
  dictionary <- do_cached_path (AsStr words_url) ;;
  let words :=
    mkStep (Some (Target_to_string ExtendedDictionaryWordPredictor))
           [("dictionary_file_path", str dictionary)] in
  let blocks_type := mkStep (Some (Target_to_string TypedBlockPredictor)) [] in
  let sents_type := mkStep (Some (Target_to_string TypedSentencesPredictor)) [] in
  match dataclass_refusal with
  | Some x => raise x
  | None =>
      ret (PipelineConfig.mk parser rasterizer layout sents words blocks_type
                             sents_type)
  end.

Definition or_default {A} (given : option A) (default : A) : A :=
  match given with
  | Some a => a
  | None => default
  end.

(** [PipelineConfig(parser=..., ...)]: the dataclass constructor; a keyword
    that is not given takes the class's default. *)
Definition PipelineConfig_init (defaults : PipelineConfig.t)
    (parser rasterizer layout sents words blocks_type sents_type :
       option PipelineStepConfig) : PipelineConfig.t :=
  PipelineConfig.mk
    (or_default parser (PipelineConfig.parser defaults))
    (or_default rasterizer (PipelineConfig.rasterizer defaults))
    (or_default layout (PipelineConfig.layout defaults))
    (or_default sents (PipelineConfig.sents defaults))
    (or_default words (PipelineConfig.words defaults))
    (or_default blocks_type (PipelineConfig.blocks_type defaults))
    (or_default sents_type (PipelineConfig.sents_type defaults)).

(** The attributes of a [Pipeline]. *)
Record Pipeline := mkPipeline {
  parser : Obj;
  rasterizer : Obj;
  layout_pred : Obj;
  words_pred : Obj;
  sents_pred : Obj;
  blocks_type_pred : Obj;
  sents_type_pred : Obj }.

(** [Pipeline.__init__(self, config)]. *)
Definition __init__ (config : PipelineConfig.t) : M Pipeline :=
  parser <- do_init_now Sparser (PipelineConfig.parser config) PDFPlumberParser ;;
  rasterizer <-
    do_init_now Srasterizer (PipelineConfig.rasterizer config) PDF2ImageRasterizer ;;
  layout_pred <-
    do_init_now Slayout (PipelineConfig.layout config) LayoutParserPredictor ;;
  words_pred <-
    do_init_now Swords (PipelineConfig.words config) ExtendedDictionaryWordPredictor ;;
  sents_pred <-
    do_init_now Ssents (PipelineConfig.sents config) PysbdSentenceBoundaryPredictor ;;
  blocks_type_pred <-
    do_init_now Sblocks_type (PipelineConfig.blocks_type config) TypedBlockPredictor ;;
  sents_type_pred <-
    do_init_now Ssents_type (PipelineConfig.sents_type config) TypedSentencesPredictor ;;
  ret (mkPipeline parser rasterizer layout_pred words_pred sents_pred
                  blocks_type_pred sents_type_pred).

(** [Pipeline.run(self, input_path)]. *)
Definition run (self : Pipeline) (input_path : PathLike) : M Document :=
  src_path <- (p <- do_cached_path input_path ;; ret (Path p)) ;;

  doc <- do_parse (parser self) (str src_path) ;;
  images <- do_rasterize (rasterizer self) (str src_path) 72 ;;
  do_annotate_images doc images ;;

  no_grad (catch_warnings (
    simplefilter Aignore ;;
    layout_regions <- do_predict Slayout (layout_pred self) doc ;;
    do_annotate doc "blocks" layout_regions)) ;;

  words <- do_predict Swords (words_pred self) doc ;;
  do_annotate doc "words" words ;;

  sents <- do_predict Ssents (sents_pred self) doc ;;
  do_annotate doc "sents" sents ;;

  typed_blocks <- do_predict Sblocks_type (blocks_type_pred self) doc ;;
  do_annotate doc "typed_blocks" typed_blocks ;;

  typed_sents <- do_predict Ssents_type (sents_type_pred self) doc ;;
  do_annotate doc "typed_sents" typed_sents ;;

  ret doc.

(** [Pipeline.__call__(self, input_path)]. *)
Definition __call__ (self : Pipeline) (input_path : PathLike) : M Document :=
  run self input_path.

End Code.

(** ** A small world to run the pipeline in

    A document is an index into a heap of layer tables; an object built by
    [init.now] remembers the configuration it was built from, and its
    methods first issue a warning for every ["warn"] parameter and then
    raise if there is a ["raise"] parameter.  [annotate] refuses a name the
    document already carries, as [mmda]'s does unless told to overwrite. *)

Module Ref.

Definition Images : Type := (string * Z)%type.
Definition Annotations : Type := list string.
Definition Layers : Type := list (string * Payload Images Annotations).

Record World := mkWorld {
  docs : list Layers;
  cache : list string }.

Definition Obj : Type := PipelineStepConfig.

Fixpoint assoc {A} (k : string) (l : list (string * A)) : option A :=
  match l with
  | [] => None
  | (k', v) :: rest => if String.eqb k k' then Some v else assoc k rest
  end.

Fixpoint values {A} (k : string) (l : list (string * A)) : list A :=
  match l with
  | [] => []
  | (k', v) :: rest =>
      if String.eqb k k' then v :: values k rest else values k rest
  end.

Fixpoint set_nth {A} (n : nat) (a : A) (l : list A) : list A :=
  match l, n with
  | [], _ => []
  | _ :: rest, O => a :: rest
  | b :: rest, S n' => b :: set_nth n' a rest
  end.

Definition with_world (e : Env World) (x : World) : Env World :=
  mkEnv (filters e) (filters_version e) (hooks e) (grad_enabled e)
        (registries e) (onceregistry e) (shown e) x.

Fixpoint issue (ws : list Issued) : Ext World unit :=
  fun e =>
    match ws with
    | [] => (inr tt, e)
    | w :: rest =>
        match warn w e with
        | (inl x, e1) => (inl x, e1)
        | (inr _, e1) => issue rest e1
        end
    end.

Definition warnings_of (o : Obj) : list Issued :=
  map (fun text => mkIssued text RuntimeWarning "ref" 1) (values "warn" (params o)).

Definition failure_of (o : Obj) : option Exc :=
  option_map (Raised "RuntimeError") (assoc "raise" (params o)).

Definition behave {A} (o : Obj) (k : Ext World A) : Ext World A :=
  fun e =>
    match issue (warnings_of o) e with
    | (inl x, e1) => (inl x, e1)
    | (inr _, e1) =>
        match failure_of o with
        | Some x => (inl x, e1)
        | None => k e1
        end
    end.

Definition cached_path (p : PathLike) : Ext World PathLike :=
  fun e =>
    if String.eqb (str p) ""
    then (inl (Raised "FileNotFoundError" ""), e)
    else (inr (AsPath ("/cache/" ++ str p)),
          with_world e (mkWorld (docs (ext e)) (cache (ext e) ++ [str p]))).

Definition init_now (c : PipelineStepConfig) (t : Target) : Ext World Obj :=
  fun e =>
    match _target_ c with
    | None => (inl (Raised "MissingMandatoryValue" "_target_"), e)
    | Some _ => (inr c, e)
    end.

Definition parse (o : Obj) (path : string) : Ext World nat :=
  behave o (fun e =>
    (inr (List.length (docs (ext e))),
     with_world e (mkWorld (docs (ext e) ++ [[("tokens", PAnnotations [path])]])
                           (cache (ext e))))).

Definition rasterize (o : Obj) (path : string) (dpi : Z) : Ext World Images :=
  behave o (fun e => (inr (path, dpi), e)).

(** A predictor answers with the names of the layers it finds. *)
Definition predict (o : Obj) (d : nat) : Ext World Annotations :=
  behave o (fun e =>
    match nth_error (docs (ext e)) d with
    | None => (inl (Raised "KeyError" "document"), e)
    | Some ls => (inr (map fst ls), e)
    end).

Definition attach (d : nat) (name : string) (v : Payload Images Annotations)
  : Ext World unit :=
  fun e =>
    match nth_error (docs (ext e)) d with
    | None => (inl (Raised "KeyError" "document"), e)
    | Some ls =>
        match assoc name ls with
        | Some _ => (inl (Raised "AssertionError" "This field name already exists"), e)
        | None =>
            (inr tt,
             with_world e (mkWorld (set_nth d (ls ++ [(name, v)]) (docs (ext e)))
                                   (cache (ext e))))
        end
    end.

Definition annotate_images (d : nat) (im : Images) : Ext World unit :=
  attach d "images" (PImages im).

Definition annotate (d : nat) (name : string) (a : Annotations) : Ext World unit :=
  attach d name (PAnnotations a).

Definition layer (x : World) (d : nat) (name : string)
  : option (Payload Images Annotations) :=
  match nth_error (docs x) d with
  | None => None
  | Some ls => assoc name ls
  end.

Definition Target_to_string (t : Target) : string :=
  match t with
  | PDFPlumberParser => "mmda.parsers.pdfplumber_parser.PDFPlumberParser"
  | PDF2ImageRasterizer => "mmda.rasterizers.rasterizer.PDF2ImageRasterizer"
  | LayoutParserPredictor => "mmda.predictors.lp_predictors.LayoutParserPredictor"
  | LayoutParserPredictor_from_pretrained =>
      "mmda.predictors.lp_predictors.LayoutParserPredictor.from_pretrained"
  | ExtendedDictionaryWordPredictor =>
      "pdf2sents.word_predictors.ExtendedDictionaryWordPredictor"
  | PysbdSentenceBoundaryPredictor =>
      "mmda.predictors.heuristic_predictors.sentence_boundary_predictor.PysbdSentenceBoundaryPredictor"
  | TypedBlockPredictor => "pdf2sents.typed_predictors.TypedBlockPredictor"
  | TypedSentencesPredictor => "pdf2sents.typed_predictors.TypedSentencesPredictor"
  end.

#[export] Instance externals : Externals :=
  @Build_Externals World Obj nat Images Annotations
    (fun s => s) Target_to_string None
    cached_path init_now parse rasterize predict annotate_images annotate
    layer.

(** An interpreter that has just started: no filters, the module's own
    hooks, grad mode on, nothing warned of yet. *)
Definition fresh : Env World := mkEnv [] 0 (0, 0) true [] [] [] (mkWorld [] []).

Definition plain (t : Target) : PipelineStepConfig :=
  mkStep (Some (Target_to_string t)) [].

(** The default attributes: every stage built from a bare [_target_]. *)
Definition quiet : Pipeline :=
  mkPipeline (plain PDFPlumberParser) (plain PDF2ImageRasterizer)
             (plain LayoutParserPredictor_from_pretrained)
             (plain ExtendedDictionaryWordPredictor)
             (plain PysbdSentenceBoundaryPredictor)
             (plain TypedBlockPredictor) (plain TypedSentencesPredictor).

Definition warning_text : string := "tensor shape changed".

Definition noisy (t : Target) : PipelineStepConfig :=
  mkStep (Some (Target_to_string t)) [("warn", warning_text)].

(** As [quiet], with a layout predictor and a word predictor that each
    issue one [RuntimeWarning]. *)
Definition chatty : Pipeline :=
  mkPipeline (plain PDFPlumberParser) (plain PDF2ImageRasterizer)
             (noisy LayoutParserPredictor_from_pretrained)
             (noisy ExtendedDictionaryWordPredictor)
             (plain PysbdSentenceBoundaryPredictor)
             (plain TypedBlockPredictor) (plain TypedSentencesPredictor).

Definition failing (t : Target) (msg : string) : PipelineStepConfig :=
  mkStep (Some (Target_to_string t)) [("raise", msg)].

(** As [quiet], with a parser, a word predictor and a sentence predictor
    that each issue that [RuntimeWarning], from the same line. *)
Definition repeating : Pipeline :=
  mkPipeline (noisy PDFPlumberParser) (plain PDF2ImageRasterizer)
             (plain LayoutParserPredictor_from_pretrained)
             (noisy ExtendedDictionaryWordPredictor)
             (noisy PysbdSentenceBoundaryPredictor)
             (plain TypedBlockPredictor) (plain TypedSentencesPredictor).

(** As [quiet], with a word predictor that raises. *)
Definition broken_words : Pipeline :=
  mkPipeline (plain PDFPlumberParser) (plain PDF2ImageRasterizer)
             (plain LayoutParserPredictor_from_pretrained)
             (failing ExtendedDictionaryWordPredictor "no dictionary")
             (plain PysbdSentenceBoundaryPredictor)
             (plain TypedBlockPredictor) (plain TypedSentencesPredictor).

(** As [quiet], with a rasterizer that was configured with a [dpi]. *)
Definition high_dpi : Pipeline :=
  mkPipeline (plain PDFPlumberParser)
             (mkStep (Some (Target_to_string PDF2ImageRasterizer)) [("dpi", "300")])
             (plain LayoutParserPredictor_from_pretrained)
             (plain ExtendedDictionaryWordPredictor)
             (plain PysbdSentenceBoundaryPredictor)
             (plain TypedBlockPredictor) (plain TypedSentencesPredictor).

(** The input of the runs below, and the warning the noisy objects issue. *)
Definition a_pdf : PathLike := AsStr "a.pdf".

Definition runtime_warning : Issued :=
  mkIssued warning_text RuntimeWarning "ref" 1.

(** A configuration with a given layout model, the other entries bare, and
    the pipeline that is built from it. *)
Definition config_of (layout_model : string) : PipelineConfig.t :=
  PipelineConfig.mk
    (plain PDFPlumberParser) (plain PDF2ImageRasterizer)
    (mkStep (Some (Target_to_string LayoutParserPredictor_from_pretrained))
            [("config_path", layout_model)])
    (plain PysbdSentenceBoundaryPredictor)
    (plain ExtendedDictionaryWordPredictor)
    (plain TypedBlockPredictor) (plain TypedSentencesPredictor).

Definition built_from (layout_model : string) : Pipeline :=
  mkPipeline
    (plain PDFPlumberParser) (plain PDF2ImageRasterizer)
    (mkStep (Some (Target_to_string LayoutParserPredictor_from_pretrained))
            [("config_path", layout_model)])
    (plain ExtendedDictionaryWordPredictor)
    (plain PysbdSentenceBoundaryPredictor)
    (plain TypedBlockPredictor) (plain TypedSentencesPredictor).

(** As [config_of], with a layout entry that leaves [_target_] out. *)
Definition untargeted_layout (layout_model : string) : PipelineConfig.t :=
  PipelineConfig.mk
    (plain PDFPlumberParser) (plain PDF2ImageRasterizer)
    (mkStep None [("config_path", layout_model)])
    (plain PysbdSentenceBoundaryPredictor)
    (plain ExtendedDictionaryWordPredictor)
    (plain TypedBlockPredictor) (plain TypedSentencesPredictor).

(** A caller who gives the layout entry and no other. *)
Definition own_layout : PipelineStepConfig :=
  mkStep (Some (Target_to_string LayoutParserPredictor_from_pretrained))
         [("config_path", "lp://faster_rcnn/PubLayNet")].

Definition layout_given (s : Stage) : option PipelineStepConfig :=
  match s with
  | Slayout => Some own_layout
  | _ => None
  end.

(** One world keeps the layers of another. *)
Definition grows (x x' : World) : Prop :=
  forall d name v, layer x d name = Some v -> layer x' d name = Some v.

(** A call that leaves the switches, the filters version and the hooks
    alone and keeps every layer. *)
Definition tame {A} (f : Ext World A) : Prop :=
  forall e,
    filters (snd (f e)) = filters e
    /\ grad_enabled (snd (f e)) = grad_enabled e
    /\ filters_version (snd (f e)) = filters_version e
    /\ hooks (snd (f e)) = hooks e
    /\ grows (ext e) (ext (snd (f e))).

End Ref.

(** ** What is observed of a computation, and the collaborators' contracts *)

Section Observations.
Context `{E : Externals}.

Definition outcome {A} (m : M A) (e : Env X) : Result A := fst (fst (m e)).
Definition final {A} (m : M A) (e : Env X) : Env X := snd (fst (m e)).
Definition history {A} (m : M A) (e : Env X) : list Event := snd (m e).

(** What a recorded call does when it is made. *)
Definition exec (c : Call) : Ext X Value :=
  fun e =>
    match c with
    | CCachedPath p =>
        match cached_path p e with (r, e') => (as_value VPath r, e') end
    | CInitNow _ c t =>
        match init_now c t e with (r, e') => (as_value VObj r, e') end
    | CParse o path =>
        match parse o path e with (r, e') => (as_value VDocument r, e') end
    | CRasterize o path dpi =>
        match rasterize o path dpi e with (r, e') => (as_value VImages r, e') end
    | CAnnotateImages d im =>
        match annotate_images d im e with
        | (r, e') => (as_value (fun _ => VNone) r, e')
        end
    | CPredict _ o d =>
        match predict o d e with (r, e') => (as_value VAnnotations r, e') end
    | CAnnotate d name a =>
        match annotate d name a e with
        | (r, e') => (as_value (fun _ => VNone) r, e')
        end
    end.

(** A recorded call is genuine when it is what the collaborator does in
    the state the call started in. *)
Definition genuine (ev : Event) : Prop :=
  exec (ev_call ev) (ev_pre ev) = (ev_result ev, ev_post ev).

Definition succeeded (ev : Event) : bool :=
  match ev_result ev with
  | inr _ => true
  | inl _ => false
  end.

Definition call_and_result (ev : Event) : Call * Result Value :=
  (ev_call ev, ev_result ev).

Definition returns (cv : Call * Value) : Call * Result Value :=
  (fst cv, inr (snd cv)).

(** The layer a successful call attaches, if it attaches one. *)
Definition attached_by (ev : Event) : option string :=
  match ev_call ev, ev_result ev with
  | CAnnotateImages _ _, inr _ => Some "images"
  | CAnnotate _ name _, inr _ => Some name
  | _, _ => None
  end.

Fixpoint attached (tr : list Event) : list string :=
  match tr with
  | [] => []
  | ev :: rest =>
      match attached_by ev with
      | Some name => name :: attached rest
      | None => attached rest
      end
  end.


Definition is_predict (s : Stage) (c : Call) : bool :=
  match c with
  | CPredict s' _ _ => if Stage_eq_dec s s' then true else false
  | _ => false
  end.

Definition is_rasterize (c : Call) : bool :=
  match c with
  | CRasterize _ _ _ => true
  | _ => false
  end.

(** The calls that [run] makes inside its [with] block. *)
Definition in_block (c : Call) : bool :=
  match c with
  | CPredict Slayout _ _ => true
  | CAnnotate _ name _ => String.eqb name "blocks"
  | _ => false
  end.


(** Two states that differ at most in the filter list, its version, the
    hooks and the grad mode. *)
Definition same_world (e e' : Env X) : Prop :=
  registries e = registries e'
  /\ onceregistry e = onceregistry e'
  /\ shown e = shown e'
  /\ ext e = ext e'.

(** The state is handed from call to call: nothing but the filter list,
    its version, the hooks and the grad mode changes between the end of one
    call and the start of the next. *)
Fixpoint threaded (e : Env X) (tr : list Event) (e' : Env X) : Prop :=
  match tr with
  | [] => same_world e e'
  | ev :: rest => same_world e (ev_pre ev) /\ threaded (ev_post ev) rest e'
  end.

(** The states a run goes through: where it starts, where each call
    starts and ends, where it ends. *)
Definition points (e : Env X) (tr : list Event) (e' : Env X) : list (Env X) :=
  e :: flat_map (fun ev => [ev_pre ev; ev_post ev]) tr ++ [e'].

(** The layer that a recorded attaching call has put on its document is
    there in world [x]. *)
Definition carries (x : X) (ev : Event) : Prop :=
  match ev_call ev with
  | CAnnotateImages d im => layer x d "images" = Some (PImages im)
  | CAnnotate d name a => layer x d name = Some (PAnnotations a)
  | _ => True
  end.

(** Every layer attached in [e] is attached, unchanged, in [e']. *)
Definition keeps_layers (e e' : Env X) : Prop :=
  forall d name v,
    layer (ext e) d name = Some v -> layer (ext e') d name = Some v.

(** Contract of the collaborators: no call removes or replaces a layer that
    a document carries ([annotate] is not told to overwrite). *)
Definition Additive : Prop :=
  forall c e, keeps_layers e (snd (exec c e)).

(** Contract of [Document]: what is attached can be read back. *)
Definition Attaching : Prop :=
  (forall d im e e',
      annotate_images d im e = (inr tt, e') ->
      layer (ext e') d "images" = Some (PImages im)) /\
  (forall d name a e e',
      annotate d name a e = (inr tt, e') ->
      layer (ext e') d name = Some (PAnnotations a)).

(** Contract of the collaborators: no call changes the warnings filter
    list or the grad mode. *)
Definition LeavesSwitches : Prop :=
  forall c e,
    filters (snd (exec c e)) = filters e /\
    grad_enabled (snd (exec c e)) = grad_enabled e.

(** Contract of [sp.init.now]: what it builds or raises depends on the
    configuration and the type alone. *)
Definition InitByConfig : Prop :=
  forall c t e e', fst (init_now c t e) = fst (init_now c t e').

(** The order in which the layers are attached. *)
Definition layer_order : list string :=
  ["images"; "blocks"; "words"; "sents"; "typed_blocks"; "typed_sents"].

(** The layers a stage's [predict] finds attached by the run. *)
Definition layers_before (s : Stage) : list string :=
  match s with
  | Sparser | Srasterizer => []
  | Slayout => firstn 1 layer_order
  | Swords => firstn 2 layer_order
  | Ssents => firstn 3 layer_order
  | Sblocks_type => firstn 4 layer_order
  | Ssents_type => firstn 5 layer_order
  end.

(** The attribute of a [Pipeline] that a stage's configuration becomes,
    and the type [__init__] hands to [sp.init.now] for it. *)
Definition attribute (s : Stage) (self : Pipeline) : Obj :=
  match s with
  | Sparser => parser self
  | Srasterizer => rasterizer self
  | Slayout => layout_pred self
  | Swords => words_pred self
  | Ssents => sents_pred self
  | Sblocks_type => blocks_type_pred self
  | Ssents_type => sents_type_pred self
  end.

Definition type_of (s : Stage) : Target :=
  match s with
  | Sparser => PDFPlumberParser
  | Srasterizer => PDF2ImageRasterizer
  | Slayout => LayoutParserPredictor
  | Swords => ExtendedDictionaryWordPredictor
  | Ssents => PysbdSentenceBoundaryPredictor
  | Sblocks_type => TypedBlockPredictor
  | Ssents_type => TypedSentencesPredictor
  end.

(** The order in which [__init__] builds the stages. *)
Definition build_order : list Stage :=
  [Sparser; Srasterizer; Slayout; Swords; Ssents; Sblocks_type; Ssents_type].

(** The two warnings that the comment in [run] names. *)
Definition known_noisy (w : Issued) : bool :=
  Category_eqb (w_category w) UserWarning
  && (String.prefix
        "Named tensors and all their associated APIs are an experimental feature and subject to change."
        (w_text w)
      || String.prefix
           "floor_divide is deprecated, and will be removed in a future version of pytorch."
           (w_text w)).

End Observations.

(** ** The statements of the specification that are compared with the code *)

Section Specification.
Context `{E : Externals}.

(** The specification's account of a run that returns: the input is
    resolved, parsed into a document, rasterized, and the six layers are
    computed and attached one after the other, each from the document as
    it then is. *)
Definition annotated_script (self : Pipeline) (input_path : PathLike)
    (p : PathLike) (doc : Document) (images : Images)
    (blocks words sents typed_blocks typed_sents : Annotations)
  : list (Call * Value) :=
  [ (CCachedPath input_path, VPath p);
    (CParse (parser self) (str (Path p)), VDocument doc);
    (CRasterize (rasterizer self) (str (Path p)) 72, VImages images);
    (CAnnotateImages doc images, VNone);
    (CPredict Slayout (layout_pred self) doc, VAnnotations blocks);
    (CAnnotate doc "blocks" blocks, VNone);
    (CPredict Swords (words_pred self) doc, VAnnotations words);
    (CAnnotate doc "words" words, VNone);
    (CPredict Ssents (sents_pred self) doc, VAnnotations sents);
    (CAnnotate doc "sents" sents, VNone);
    (CPredict Sblocks_type (blocks_type_pred self) doc, VAnnotations typed_blocks);
    (CAnnotate doc "typed_blocks" typed_blocks, VNone);
    (CPredict Ssents_type (sents_type_pred self) doc, VAnnotations typed_sents);
    (CAnnotate doc "typed_sents" typed_sents, VNone) ].

(** The specification's account of construction: one [sp.init.now] per
    stage, from that stage's configuration. *)
Definition construction_script (config : PipelineConfig.t) (self : Pipeline)
  : list (Call * Value) :=
  map (fun s => (CInitNow s (PipelineConfig.step s config) (type_of s),
                 VObj (attribute s self)))
      build_order.

(** The specification's statement on warnings, for one run: a warning that
    a call of the run would drop, and that the caller's own filters would
    not drop, is one of the known noisy warnings, and the call is the
    layout predictor's inference call. *)
Definition suppresses_only_known_noisy (self : Pipeline)
    (input_path : PathLike) (e : Env X) : Prop :=
  forall ev w,
    In ev (history (run self input_path) e) ->
    action_for (filters (ev_pre ev)) w = Aignore ->
    action_for (filters e) w <> Aignore ->
    known_noisy w = true /\ is_predict Slayout (ev_call ev) = true.

End Specification.

(** ** Further observations of construction and of a run *)

Section Dataflow.
Context `{E : Externals}.

(** The calls of a construction, were none to raise. *)
Definition init_calls (config : PipelineConfig.t) : list Call :=
  map (fun s => CInitNow s (PipelineConfig.step s config) (type_of s)) build_order.

Fixpoint index_in (k : Stage) (l : list Stage) : nat :=
  match l with
  | [] => 0
  | s :: rest => if Stage_eq_dec k s then 0 else S (index_in k rest)
  end.

(** How many stages [__init__] builds before stage [k]. *)
Definition built_before (k : Stage) : nat := index_in k build_order.

(** The name under which [run] attaches what a stage's [predict] returns. *)
Definition layer_of (s : Stage) : option string :=
  match s with
  | Sparser | Srasterizer => None
  | Slayout => Some "blocks"
  | Swords => Some "words"
  | Ssents => Some "sents"
  | Sblocks_type => Some "typed_blocks"
  | Ssents_type => Some "typed_sents"
  end.

(** The document a call is made on or with, and the path a call is given. *)
Definition document_of (c : Call) : option Document :=
  match c with
  | CAnnotateImages d _ | CPredict _ _ d | CAnnotate d _ _ => Some d
  | _ => None
  end.

Definition path_of (c : Call) : option string :=
  match c with
  | CParse _ path | CRasterize _ path _ => Some path
  | _ => None
  end.

(** The constructor call with every field given as [given] says. *)
Definition PipelineConfig_with (defaults : PipelineConfig.t)
    (given : Stage -> option PipelineStepConfig) : PipelineConfig.t :=
  PipelineConfig_init defaults
    (given Sparser) (given Srasterizer) (given Slayout) (given Ssents)
    (given Swords) (given Sblocks_type) (given Ssents_type).

(** The name under which a call attaches a layer, whether or not it then
    returns. *)
Definition attach_name (c : Call) : option string :=
  match c with
  | CAnnotateImages _ _ => Some "images"
  | CAnnotate _ name _ => Some name
  | _ => None
  end.

Fixpoint attach_names (tr : list Event) : list string :=
  match tr with
  | [] => []
  | ev :: rest =>
      match attach_name (ev_call ev) with
      | Some name => name :: attach_names rest
      | None => attach_names rest
      end
  end.

(** What any document carries under [name] in [e], it carries under [name],
    unchanged, in [e']. *)
Definition keeps_named (name : string) (e e' : Env X) : Prop :=
  forall d v, layer (ext e) d name = Some v -> layer (ext e') d name = Some v.

(** Contract of the collaborators: a call changes no layer of any document
    but the one it attaches; what [annotate] does to a layer that is already
    there under its name, replace it or refuse, is left open. *)
Definition OwnLayerOnly : Prop :=
  forall c e name,
    attach_name c <> Some name -> keeps_named name e (snd (exec c e)).

(** Contract of the collaborators: no call marks the filters as changed. *)
Definition LeavesVersion : Prop :=
  forall c e, filters_version (snd (exec c e)) = filters_version e.

(** Contract of the collaborators: no call replaces a hook that shows a
    warning. *)
Definition LeavesHooks : Prop :=
  forall c e, hooks (snd (exec c e)) = hooks e.

(** How often [run] has marked the filters as changed when it makes a call:
    entering the block and [simplefilter] come before the two calls in the
    block, leaving it before the later ones. *)
Definition marks_before (c : Call) : nat :=
  match c with
  | CPredict Slayout _ _ => 2
  | CPredict _ _ _ => 3
  | CAnnotate _ name _ => if String.eqb name "blocks" then 2 else 3
  | _ => 0
  end.

Definition reached_block (tr : list Event) : bool :=
  existsb (fun ev => is_predict Slayout (ev_call ev)) tr.

(** The specification's statement on overriding one stage, for two
    constructions from one state: the [sp.init.now] calls made for every
    other stage are the same in both. *)
Definition override_affects_no_other_stage (k : Stage)
    (c1 c2 : PipelineConfig.t) (e : Env X) : Prop :=
  forall s, s <> k ->
    forall c t,
      In (CInitNow s c t) (map ev_call (history (__init__ c1) e))
      <-> In (CInitNow s c t) (map ev_call (history (__init__ c2) e)).

End Dataflow.

(** ** Proofs *)

(** Case analysis on the next collaborator call of the goal. *)
Ltac next_call :=
  match goal with
  | |- context [cached_path ?arg ?st] =>
      let H := fresh "Hcached" in
      destruct (cached_path arg st) as [[?x|?p] ?e] eqn:H
  | |- context [init_now ?cfg ?ty ?st] =>
      let H := fresh "Hinit" in
      destruct (init_now cfg ty st) as [[?x|?o] ?e] eqn:H
  | |- context [parse ?ob ?arg ?st] =>
      let H := fresh "Hparse" in
      destruct (parse ob arg st) as [[?x|?doc] ?e] eqn:H
  | |- context [rasterize ?ob ?arg ?res ?st] =>
      let H := fresh "Hrasterize" in
      destruct (rasterize ob arg res st) as [[?x|?images] ?e] eqn:H
  | |- context [annotate_images ?dc ?im ?st] =>
      let H := fresh "Himages" in
      destruct (annotate_images dc im st) as [[?x|[]] ?e] eqn:H
  | |- context [predict ?ob ?dc ?st] =>
      let H := fresh "Hpredict" in
      destruct (predict ob dc st) as [[?x|?a] ?e] eqn:H
  | |- context [annotate ?dc ?nm ?an ?st] =>
      let H := fresh "Hannotate" in
      destruct (annotate dc nm an st) as [[?x|[]] ?e] eqn:H
  | |- context [dataclass_refusal] =>
      let H := fresh "Hrefusal" in
      destruct dataclass_refusal as [?x|] eqn:H
  end.

Ltac unfold_code :=
  unfold outcome, final, history, __call__, run, __init__, PipelineConfig_defaults,
    do_cached_path, do_init_now, do_parse, do_rasterize, do_annotate_images,
    do_predict, do_annotate, no_grad, catch_warnings, simplefilter, bind, ret,
    raise, call.

(** Run the code symbolically: one goal per way the calls can turn out. *)
Ltac run_code :=
  unfold_code; repeat (next_call; cbn [as_value app fst snd]); cbn [fst snd].

Section Histories.
Context `{E : Externals}.

(** *** Every recorded call is what the collaborator does *)

Lemma run_history_genuine (self : Pipeline) (input_path : PathLike) (e : Env X) :
  Forall genuine (history (run self input_path) e).
Proof.
  run_code.
  all: repeat (apply Forall_cons; [unfold genuine, exec; cbn [ev_call ev_pre ev_result ev_post];
    match goal with H : _ = _ |- _ => rewrite H; reflexivity end|]); apply Forall_nil.
Qed.

Lemma init_history_genuine (config : PipelineConfig.t) (e : Env X) :
  Forall genuine (history (__init__ config) e).
Proof.
  run_code.
  all: repeat (apply Forall_cons;
               [ unfold genuine, exec; cbn [ev_call ev_pre ev_result ev_post];
                 match goal with H : _ = _ |- _ => rewrite H; reflexivity end
               | ]); apply Forall_nil.
Qed.

Lemma run_threaded (self : Pipeline) (input_path : PathLike) (e : Env X) :
  threaded e (history (run self input_path) e) (final (run self input_path) e).
Proof. run_code; cbn; unfold same_world; cbn; intuition reflexivity. Qed.
End Histories.

Section Proofs.
Context `{E : Externals}.

(** C8: calling a pipeline is running it: [__call__] and [run] give the
    same result, leave the same state and make the same calls, for every
    pipeline, input path and starting state. *)
Theorem call_is_run (self : Pipeline) (input_path : PathLike) (e : Env X) :
  __call__ self input_path e = run self input_path e.
Proof. reflexivity. Qed.

End Proofs.

Section Layers.
Context `{E : Externals}.

Lemma keeps_layers_same_world (e e' : Env X) :
  same_world e e' -> keeps_layers e e'.
Proof. intros (_ & _ & _ & Hext) d name v. rewrite Hext. auto. Qed.

Lemma keeps_layers_trans (a b c : Env X) :
  keeps_layers a b -> keeps_layers b c -> keeps_layers a c.
Proof. unfold keeps_layers. eauto. Qed.

Lemma genuine_keeps_layers (ev : Event) :
  Additive -> genuine ev -> keeps_layers (ev_pre ev) (ev_post ev).
Proof.
  intros Hadd Hgen. specialize (Hadd (ev_call ev) (ev_pre ev)).
  rewrite Hgen in Hadd. exact Hadd.
Qed.

(** From the start of a threaded history of genuine calls to its end,
    layers are kept. *)
Lemma threaded_keeps_layers (tr : list Event) :
  Additive ->
  forall e e', Forall genuine tr -> threaded e tr e' -> keeps_layers e e'.
Proof.
  intros Hadd. induction tr as [|ev rest IH]; intros e e' Hgen Hthr.
  - now apply keeps_layers_same_world.
  - destruct Hthr as [Hsame Hrest]. inversion Hgen as [|? ? Hev Hgen']; subst.
    apply keeps_layers_trans with (ev_pre ev).
    + now apply keeps_layers_same_world.
    + apply keeps_layers_trans with (ev_post ev).
      * now apply genuine_keeps_layers.
      * now apply IH.
Qed.

Lemma genuine_attach_carries (ev : Event) :
  Attaching -> genuine ev -> succeeded ev = true ->
  carries (ext (ev_post ev)) ev.
Proof.
  intros [Him Han]. destruct ev as [c pre r post].
  unfold genuine, succeeded, carries, exec; cbn.
  destruct c; auto; intros Hgen Hok.
  - destruct (annotate_images d im pre) as [[x|[]] e1] eqn:H; cbn in Hgen;
      injection Hgen as <- <-; try discriminate Hok.
    eapply Him; eauto.
  - destruct (annotate d name a pre) as [[x|[]] e1] eqn:H; cbn in Hgen;
      injection Hgen as <- <-; try discriminate Hok.
    eapply Han; eauto.
Qed.

Lemma carries_kept (e e' : Env X) (ev : Event) :
  keeps_layers e e' -> carries (ext e) ev -> carries (ext e') ev.
Proof. unfold carries. destruct (ev_call ev); auto. Qed.

Lemma keeps_named_same_world (name : string) (e e' : Env X) :
  same_world e e' -> keeps_named name e e'.
Proof. intros (_ & _ & _ & Hext) d v. rewrite Hext. auto. Qed.

Lemma keeps_named_trans (name : string) (a b c : Env X) :
  keeps_named name a b -> keeps_named name b c -> keeps_named name a c.
Proof. unfold keeps_named. eauto. Qed.

Lemma genuine_keeps_named (ev : Event) (name : string) :
  OwnLayerOnly -> genuine ev -> attach_name (ev_call ev) <> Some name ->
  keeps_named name (ev_pre ev) (ev_post ev).
Proof.
  intros Hown Hgen Hname. specialize (Hown (ev_call ev) (ev_pre ev) name Hname).
  rewrite Hgen in Hown. exact Hown.
Qed.

(** Through calls that do not attach under [name], every state on the way
    keeps what is under [name] in every earlier one. *)
Lemma points_keep_named (tr : list Event) (name : string) :
  OwnLayerOnly ->
  Forall (fun ev => attach_name (ev_call ev) <> Some name) tr ->
  forall e e',
    Forall genuine tr -> threaded e tr e' ->
    StronglySorted (keeps_named name) (points e tr e').
Proof.
  intros Hown Hnames. induction Hnames as [|ev rest Hev Hrest IH];
    intros e e' Hgen Hthr.
  - cbn in *. repeat constructor. now apply keeps_named_same_world.
  - destruct Hthr as [Hsame Hthr]. inversion Hgen as [|? ? Hgev Hgen']; subst.
    specialize (IH (ev_post ev) e' Hgen' Hthr).
    change (points e (ev :: rest) e')
      with (e :: ev_pre ev :: points (ev_post ev) rest e').
    assert (Hpost : Forall (keeps_named name (ev_post ev))
                           (points (ev_post ev) rest e')).
    { unfold points in *. inversion IH; subst. constructor; [|assumption].
      intros d v; auto. }
    assert (Hpre : Forall (keeps_named name (ev_pre ev))
                          (points (ev_post ev) rest e')).
    { eapply Forall_impl; [|exact Hpost]. intros a Ha.
      eapply keeps_named_trans; [|exact Ha]. now apply genuine_keeps_named. }
    constructor; [constructor; assumption|].
    constructor; [now apply keeps_named_same_world|].
    eapply Forall_impl; [|exact Hpre]. intros a Ha.
    eapply keeps_named_trans; [|exact Ha]. now apply keeps_named_same_world.
Qed.

Lemma attach_names_absent (tr : list Event) (name : string) :
  ~ In name (attach_names tr) ->
  Forall (fun ev => attach_name (ev_call ev) <> Some name) tr.
Proof.
  induction tr as [|ev rest IH]; cbn; intros Hnot; constructor.
  - intros Heq. rewrite Heq in Hnot. apply Hnot. now left.
  - apply IH. intros Hin. apply Hnot.
    destruct (attach_name (ev_call ev)); [now right|assumption].
Qed.

Lemma carries_kept_named (e e' : Env X) (ev : Event) :
  (forall name, attach_name (ev_call ev) = Some name -> keeps_named name e e') ->
  carries (ext e) ev -> carries (ext e') ev.
Proof.
  unfold carries. destruct (ev_call ev); cbn; auto; intros H; now apply H.
Qed.

(** In a history that attaches under no name twice, what a call attached
    is on its document in every state from the end of that call on. *)
Lemma attached_stays (tr : list Event) :
  OwnLayerOnly -> Attaching -> NoDup (attach_names tr) ->
  forall e e',
    Forall genuine tr -> threaded e tr e' ->
    forall i ev,
      nth_error tr i = Some ev -> succeeded ev = true ->
      Forall (fun p => carries (ext p) ev)
             (points (ev_post ev) (skipn (S i) tr) e').
Proof.
  intros Hown Hatt. induction tr as [|hd rest IH];
    intros Hnodup e e' Hgen Hthr i ev Hnth Hok.
  - destruct i; discriminate Hnth.
  - destruct Hthr as [_ Hthr]. inversion Hgen as [|? ? Hhd Hgen']; subst.
    destruct i as [|i]; cbn in Hnth.
    + injection Hnth as ->. cbn [skipn].
      assert (Hhere : carries (ext (ev_post ev)) ev)
        by now apply genuine_attach_carries.
      cbn [attach_names] in Hnodup.
      destruct (attach_name (ev_call ev)) as [name|] eqn:Hname.
      * inversion Hnodup as [|? ? Hnot _]; subst.
        pose proof (@points_keep_named rest name Hown
                      (attach_names_absent _ _ Hnot) _ _ Hgen' Hthr) as Hsorted.
        unfold points in *. inversion Hsorted as [|? ? _ Hall]; subst.
        constructor; [exact Hhere|].
        eapply Forall_impl; [|exact Hall]. intros p Hp.
        apply (@carries_kept_named (ev_post ev) p ev); [|exact Hhere].
        intros name' Hname'. rewrite Hname in Hname'.
        now injection Hname' as <-.
      * apply Forall_forall. intros p _. revert Hname. unfold carries.
        destruct (ev_call ev); cbn; intros Hname; try discriminate Hname; exact I.
    + rewrite skipn_cons. apply IH with (e := ev_post hd); auto.
      cbn [attach_names] in Hnodup.
      destruct (attach_name (ev_call hd)); [now inversion Hnodup|assumption].
Qed.

Lemma points_end {P : Env X -> Prop} (a : Env X) (tr : list Event) (e' : Env X) :
  Forall P (points a tr e') ->
  P e' /\ forall j ev, nth_error tr j = Some ev -> P (ev_pre ev).
Proof.
  unfold points. intros Hall. inversion Hall as [|? ? _ Hrest]; subst. clear Hall.
  revert Hrest. induction tr as [|hd rest IH]; cbn; intros Hrest.
  - inversion Hrest; subst. split; [assumption|]. intros [|j] ev H; discriminate H.
  - inversion Hrest as [|? ? Hpre Hrest']; subst.
    inversion Hrest' as [|? ? _ Hrest'']; subst.
    destruct (IH Hrest'') as [Hend Hpres]. split; [assumption|].
    intros [|j] ev H; cbn in H; [now injection H as <-|eauto].
Qed.

(** The names under which a run attaches, returning or raising: a
    beginning of the six, so no name twice and no other name. *)
Lemma run_attach_names (self : Pipeline) (input_path : PathLike) (e : Env X) :
  NoDup (attach_names (history (run self input_path) e))
  /\ incl (attach_names (history (run self input_path) e)) layer_order.
Proof.
  split.
  - run_code; cbn.
    all: repeat (constructor; [cbn; intuition discriminate|]); constructor.
  - run_code; cbn; intros name Hin; cbn in *; intuition.
Qed.

(** C7: when a collaborator's call changes no layer but the one it
    attaches, and what is attached can be read back: a layer that a call of
    a run has attached is on its document, unchanged, in every state the
    run goes through from then on, to its end and whether it returns or
    raises; what a document carries under any other name than the six (the
    parser's own layers) is kept from every state of the run to every later
    one; and a run attaches under the six names only and under none of them
    twice, so that no stage attaches over the layer of another. *)
Theorem layers_only_grow (Hown : OwnLayerOnly) (Hatt : Attaching)
    (self : Pipeline) (input_path : PathLike) (e : Env X) :
  (forall i ev,
      nth_error (history (run self input_path) e) i = Some ev ->
      succeeded ev = true ->
      Forall (fun p => carries (ext p) ev)
             (points (ev_post ev)
                     (skipn (S i) (history (run self input_path) e))
                     (final (run self input_path) e)))
  /\ (forall name,
         ~ In name layer_order ->
         StronglySorted (keeps_named name)
           (points e (history (run self input_path) e)
                   (final (run self input_path) e)))
  /\ NoDup (attach_names (history (run self input_path) e))
  /\ incl (attach_names (history (run self input_path) e)) layer_order.
Proof.
  destruct (run_attach_names self input_path e) as [Hnodup Hincl].
  split; [|split; [|split; assumption]].
  - intros i ev.
    apply (@attached_stays _ Hown Hatt Hnodup e _
             (run_history_genuine self input_path e)
             (run_threaded self input_path e)).
  - intros name Hname.
    apply points_keep_named;
      auto using run_history_genuine, run_threaded.
    apply attach_names_absent. intros Hin. apply Hname. now apply Hincl.
Qed.

(** C2: the layers a run attaches are always a beginning of the list
    images, blocks, words, sents, typed_blocks, typed_sents, in that order,
    and the whole list when the run returns; when a predictor is called,
    the run has attached exactly the layers that come before its own
    (images for the layout predictor, then blocks for the word predictor,
    then words for the sentence predictor, then sents for the two type
    predictors).  The attaching calls are the document's own, made in the
    state the call before left; so, a call changing no layer but the one it
    attaches and what is attached being readable, a layer that was attached
    is on the document when every later call starts and when the run
    ends. *)
Theorem layers_attached_in_order
    (self : Pipeline) (input_path : PathLike) (e : Env X) :
  (exists k, attached (history (run self input_path) e) = firstn k layer_order)
  /\ (forall doc,
        outcome (run self input_path) e = inr doc ->
        attached (history (run self input_path) e) = layer_order)
  /\ (forall i ev s o d,
        nth_error (history (run self input_path) e) i = Some ev ->
        ev_call ev = CPredict s o d ->
        attached (firstn i (history (run self input_path) e)) = layers_before s)
  /\ Forall genuine (history (run self input_path) e)
  /\ threaded e (history (run self input_path) e) (final (run self input_path) e)
  /\ (OwnLayerOnly -> Attaching ->
      forall i ev,
        nth_error (history (run self input_path) e) i = Some ev ->
        succeeded ev = true ->
        carries (ext (final (run self input_path) e)) ev
        /\ forall j ev',
             nth_error (history (run self input_path) e) (S i + j) = Some ev' ->
             carries (ext (ev_pre ev')) ev).
Proof.
  split; [|split; [|split; [|split; [|split]]]].
  - exists (List.length (attached (history (run self input_path) e))).
    run_code; reflexivity.
  - run_code; intros d Hd; try discriminate Hd; reflexivity.
  - run_code; intros i ev s o d Hnth Hcall.
    all: repeat (destruct i as [|i];
                 [ injection Hnth as <-; cbn in Hcall; try discriminate Hcall;
                   injection Hcall as <- _ _; reflexivity
                 | cbn in Hnth ]).
    all: destruct i; discriminate Hnth.
  - apply run_history_genuine.
  - apply run_threaded.
  - intros Hown Hatt i ev Hnth Hok.
    destruct (run_attach_names self input_path e) as [Hnodup _].
    pose proof (@attached_stays _ Hown Hatt Hnodup e _
                  (run_history_genuine self input_path e)
                  (run_threaded self input_path e) i ev Hnth Hok) as Hstays.
    apply points_end in Hstays. destruct Hstays as [Hend Hlater].
    split; [exact Hend|].
    intros j ev' Hj. apply (Hlater j). now rewrite nth_error_skipn.
Qed.
End Layers.

Section Annotated.
Context `{E : Externals}.

(** What a call of the history attached is still attached at the end. *)
Lemma attached_layer_persists (tr : list Event) :
  Additive -> Attaching ->
  forall e e',
    Forall genuine tr -> threaded e tr e' ->
    forall i ev,
      nth_error tr i = Some ev -> succeeded ev = true ->
      carries (ext e') ev.
Proof.
  intros Hadd Hatt. induction tr as [|hd rest IH]; intros e e' Hgen Hthr i ev Hnth Hok.
  - destruct i; discriminate Hnth.
  - destruct Hthr as [_ Hrest]. inversion Hgen as [|? ? Hhd Hgen']; subst.
    destruct i as [|i]; cbn in Hnth.
    + injection Hnth as ->.
      apply carries_kept with (ev_post ev).
      * now apply threaded_keeps_layers with rest.
      * now apply genuine_attach_carries.
    + now apply IH with (ev_post hd) i.
Qed.

(** C1: a run returns a document exactly when none of its calls raises,
    and then its calls are, in this order and each made once:
    [cached_path] on the input path; [parse] on the path it gave, which
    gives the document; [rasterize] on that path; [annotate_images] with
    the images; and, for blocks, words, sents, typed_blocks and
    typed_sents in turn, the stage's [predict] on the document followed by
    [annotate] of what it returned under that name.  Each recorded call is
    what the collaborator does, and, when attaching is additive and can be
    read back, the document that is returned carries all six layers at the
    end. *)
Theorem run_returns_annotated_document (Hadd : Additive) (Hatt : Attaching)
    (self : Pipeline) (input_path : PathLike) (e : Env X) :
  ((exists doc, outcome (run self input_path) e = inr doc)
   <-> forallb succeeded (history (run self input_path) e) = true)
  /\ forall doc,
       outcome (run self input_path) e = inr doc ->
       exists p images blocks words sents typed_blocks typed_sents,
         map call_and_result (history (run self input_path) e)
         = map returns (annotated_script self input_path p doc images blocks
                                         words sents typed_blocks typed_sents)
         /\ Forall genuine (history (run self input_path) e)
         /\ layer (ext (final (run self input_path) e)) doc "images"
            = Some (PImages images)
         /\ layer (ext (final (run self input_path) e)) doc "blocks"
            = Some (PAnnotations blocks)
         /\ layer (ext (final (run self input_path) e)) doc "words"
            = Some (PAnnotations words)
         /\ layer (ext (final (run self input_path) e)) doc "sents"
            = Some (PAnnotations sents)
         /\ layer (ext (final (run self input_path) e)) doc "typed_blocks"
            = Some (PAnnotations typed_blocks)
         /\ layer (ext (final (run self input_path) e)) doc "typed_sents"
            = Some (PAnnotations typed_sents).
Proof.
  split.
  - run_code; split; try reflexivity; try discriminate.
    all: try (intros [d Hd]; discriminate Hd).
    intros _. eexists; reflexivity.
  - generalize (run_history_genuine self input_path e).
    generalize (@attached_layer_persists _ Hadd Hatt _ _
                  (run_history_genuine self input_path e)
                  (run_threaded self input_path e)).
    run_code; intros Hkept Hgen d Hd; try discriminate Hd.
    injection Hd as <-.
    do 7 eexists.
    split; [reflexivity|]. split; [exact Hgen|].
    repeat split.
    + exact (Hkept 3 _ eq_refl eq_refl).
    + exact (Hkept 5 _ eq_refl eq_refl).
    + exact (Hkept 7 _ eq_refl eq_refl).
    + exact (Hkept 9 _ eq_refl eq_refl).
    + exact (Hkept 11 _ eq_refl eq_refl).
    + exact (Hkept 13 _ eq_refl eq_refl).
Qed.
End Annotated.

Section Rasterizing.
Context `{E : Externals}.

(** C9: whatever the pipeline was built from, every [rasterize] call of
    [run] is the call of [self.rasterizer]'s [rasterize] with [dpi=72], made
    in the state that [parse] left; it is made whenever [parse] has
    returned, the images it returns are the ones [annotate_images] is then
    given, and a run that returns made exactly one. *)
Theorem rasterize_at_72_dpi (self : Pipeline) (input_path : PathLike) (e : Env X) :
  Forall (fun ev =>
            forall o path dpi,
              ev_call ev = CRasterize o path dpi ->
              o = rasterizer self /\ dpi = 72%Z /\ genuine ev)
         (history (run self input_path) e)
  /\ threaded e (history (run self input_path) e) (final (run self input_path) e)
  /\ (forall ev_p doc,
        nth_error (history (run self input_path) e) 1 = Some ev_p ->
        ev_result ev_p = inr (VDocument doc) ->
        exists ev_r path,
          nth_error (history (run self input_path) e) 2 = Some ev_r
          /\ ev_call ev_r = CRasterize (rasterizer self) path 72
          /\ ev_pre ev_r = ev_post ev_p)
  /\ (forall ev_r im,
        nth_error (history (run self input_path) e) 2 = Some ev_r ->
        ev_result ev_r = inr (VImages im) ->
        exists ev_a doc,
          nth_error (history (run self input_path) e) 3 = Some ev_a
          /\ ev_call ev_a = CAnnotateImages doc im
          /\ ev_pre ev_a = ev_post ev_r
          /\ genuine ev_a)
  /\ (forall doc,
        outcome (run self input_path) e = inr doc ->
        exists p,
          map ev_call (filter (fun ev => is_rasterize (ev_call ev))
                              (history (run self input_path) e))
          = [CRasterize (rasterizer self) (str (Path p)) 72]).
Proof.
  split; [|split; [|split; [|split]]].
  - assert (Hcalls : Forall (fun ev =>
                               forall o path dpi,
                                 ev_call ev = CRasterize o path dpi ->
                                 o = rasterizer self /\ dpi = 72%Z)
                            (history (run self input_path) e)).
    { run_code.
      all: repeat (constructor;
                   [ cbn; intros o path dpi Hcall; try discriminate Hcall;
                     injection Hcall as <- _ <-; split; reflexivity
                   | ]); constructor. }
    pose proof (run_history_genuine self input_path e) as Hgen.
    rewrite Forall_forall in *. intros ev Hin o path dpi Hcall.
    destruct (Hcalls ev Hin o path dpi Hcall) as [Ho Hdpi]. auto.
  - apply run_threaded.
  - run_code; intros ev_p d Hp Hres; cbn in Hp; try discriminate Hp.
    all: injection Hp as <-; cbn in Hres; try discriminate Hres.
    all: do 2 eexists; repeat split; reflexivity.
  - generalize (run_history_genuine self input_path e).
    run_code; intros Hgen ev_r im Hr Hres; cbn in Hr; try discriminate Hr.
    all: injection Hr as <-; cbn in Hres; try discriminate Hres.
    all: injection Hres as <-.
    all: do 2 eexists; repeat split; try reflexivity.
    all: repeat match goal with
           | H : Forall genuine (_ :: _) |- _ =>
               let Hev := fresh "Hev" in
               inversion H as [|? ? Hev ?]; subst; clear H
           end; assumption.
  - run_code; intros d Hd; try discriminate Hd.
    eexists; reflexivity.
Qed.
End Rasterizing.

Section Construction.
Context `{E : Externals}.

Lemma init_threaded (config : PipelineConfig.t) (e : Env X) :
  threaded e (history (__init__ config) e) (final (__init__ config) e).
Proof. run_code; cbn; unfold same_world; cbn; intuition reflexivity. Qed.

(** The calls of a construction that returns. *)
Lemma init_script (config : PipelineConfig.t) (e : Env X) (self : Pipeline) :
  outcome (__init__ config) e = inr self ->
  map call_and_result (history (__init__ config) e)
  = map returns (construction_script config self).
Proof.
  run_code; intros Hself; try discriminate Hself.
  injection Hself as <-. reflexivity.
Qed.

(** Each attribute is what [sp.init.now] built from its stage's entry. *)
Lemma init_attribute (config : PipelineConfig.t) (e : Env X) (self : Pipeline) :
  outcome (__init__ config) e = inr self ->
  forall s, exists es,
    fst (init_now (PipelineConfig.step s config) (type_of s) es)
    = inr (attribute s self).
Proof.
  run_code; intros Hself; try discriminate Hself.
  injection Hself as <-. intros s.
  destruct s; cbn; eexists;
    match goal with H : init_now ?c ?t ?st = _ |- fst (init_now ?c ?t _) = _ =>
      rewrite H; reflexivity end.
Qed.

(** C4: the class body fetches the dictionary with [cached_path] and, when
    it returns, has computed the seven defaults, the layout entry with
    [config_path] ["lp://efficientdet/PubLayNet"] and the words entry with
    the dictionary fetched from the words.txt URL; a [PipelineConfig] has,
    for each field, the entry the caller gave, and the default where the
    caller gave none; and [__init__] returns exactly when no [sp.init.now]
    call raises, having built the seven attributes, in the order parser,
    rasterizer, layout, words, sents, blocks_type, sents_type, each by one
    call of [sp.init.now] on its own field's entry, made in the state the
    call before left. *)
Theorem pipeline_construction
    (e0 : Env X) (given : Stage -> option PipelineStepConfig) (e : Env X) :
  map ev_call (history PipelineConfig_defaults e0) = [CCachedPath (AsStr words_url)]
  /\ Forall genuine (history PipelineConfig_defaults e0)
  /\ forall defaults,
       outcome PipelineConfig_defaults e0 = inr defaults ->
       (exists dictionary,
           fst (cached_path (AsStr words_url) e0) = inr dictionary
           /\ defaults
              = PipelineConfig.mk
                  (mkStep (Some (Target_to_string PDFPlumberParser)) [])
                  (mkStep (Some (Target_to_string PDF2ImageRasterizer)) [])
                  (mkStep (Some (Target_to_string LayoutParserPredictor_from_pretrained))
                          [("config_path", "lp://efficientdet/PubLayNet")])
                  (mkStep (Some (Target_to_string PysbdSentenceBoundaryPredictor)) [])
                  (mkStep (Some (Target_to_string ExtendedDictionaryWordPredictor))
                          [("dictionary_file_path", str dictionary)])
                  (mkStep (Some (Target_to_string TypedBlockPredictor)) [])
                  (mkStep (Some (Target_to_string TypedSentencesPredictor)) []))
       /\ let config :=
            PipelineConfig_init defaults
              (given Sparser) (given Srasterizer) (given Slayout) (given Ssents)
              (given Swords) (given Sblocks_type) (given Ssents_type) in
          (forall s c, given s = Some c -> PipelineConfig.step s config = c)
          /\ (forall s,
                 given s = None ->
                 PipelineConfig.step s config = PipelineConfig.step s defaults)
          /\ ((exists self, outcome (__init__ config) e = inr self)
              <-> forallb succeeded (history (__init__ config) e) = true)
          /\ Forall genuine (history (__init__ config) e)
          /\ threaded e (history (__init__ config) e) (final (__init__ config) e)
          /\ forall self,
               outcome (__init__ config) e = inr self ->
               map call_and_result (history (__init__ config) e)
               = map returns (construction_script config self).
Proof.
  split; [|split].
  - run_code; reflexivity.
  - run_code.
    all: repeat (apply Forall_cons;
                 [ unfold genuine, exec; cbn [ev_call ev_pre ev_result ev_post];
                   match goal with H : _ = _ |- _ => rewrite H; reflexivity end
                 | ]); apply Forall_nil.
  - intros defaults Hdefaults. split.
    + revert Hdefaults. run_code; intros Hd; try discriminate Hd.
      injection Hd as <-. eexists; split; reflexivity.
    + intros config. split; [|split; [|split; [|split; [|split]]]].
      * intros s c Hgiven. unfold config, PipelineConfig_init.
        destruct s; cbn; rewrite Hgiven; reflexivity.
      * intros s Hgiven. unfold config, PipelineConfig_init.
        destruct s; cbn; rewrite Hgiven; reflexivity.
      * generalize config; intros c. split.
        -- intros [self Hself]. revert Hself.
           run_code; intros Hself; try discriminate Hself; reflexivity.
        -- run_code; intros Hok; try discriminate Hok. eexists; reflexivity.
      * apply init_history_genuine.
      * apply init_threaded.
      * intros self. apply init_script.
Qed.

(** The calls of a construction are calls of its script. *)
Lemma init_call_shape (config : PipelineConfig.t) (e : Env X) (c : Call) :
  In c (map ev_call (history (__init__ config) e)) -> In c (init_calls config).
Proof. run_code; cbn; intuition. Qed.

Lemma init_calls_returned (config : PipelineConfig.t) (e : Env X) (self : Pipeline) :
  outcome (__init__ config) e = inr self ->
  map ev_call (history (__init__ config) e) = init_calls config.
Proof. run_code; intros Hself; try discriminate Hself. reflexivity. Qed.

Lemma init_calls_stage (config : PipelineConfig.t) (s : Stage)
    (c : PipelineStepConfig) (t : Target) :
  In (CInitNow s c t) (init_calls config) <->
  c = PipelineConfig.step s config /\ t = type_of s.
Proof.
  unfold init_calls. rewrite in_map_iff. split.
  - intros [s' [Heq _]]. injection Heq as -> <- <-. auto.
  - intros [-> ->]. exists s. split; [reflexivity|].
    destruct s; cbn; auto 8.
Qed.

(** C6, as the code has it: take two configurations that differ at most in
    the entry of one stage [k], and another stage [s].  Whenever both
    constructions get to build [s], they build it by the same [sp.init.now]
    call, on the same entry and type.  When both constructions return, [s]
    was built in both, by the same call, and, where [sp.init.now] builds
    from the configuration and the type alone, the two attributes for [s]
    are the same.  (A construction that raises at [k] never gets to the
    stages after [k].) *)
Theorem override_leaves_other_stages
    (k : Stage) (c1 c2 : PipelineConfig.t)
    (Hothers : forall s, s <> k -> PipelineConfig.step s c1 = PipelineConfig.step s c2)
    (e1 e2 : Env X) (s : Stage) (Hs : s <> k) :
  (forall c t c' t',
      In (CInitNow s c t) (map ev_call (history (__init__ c1) e1)) ->
      In (CInitNow s c' t') (map ev_call (history (__init__ c2) e2)) ->
      c = c' /\ t = t')
  /\ forall self1 self2,
       outcome (__init__ c1) e1 = inr self1 ->
       outcome (__init__ c2) e2 = inr self2 ->
       In (CInitNow s (PipelineConfig.step s c1) (type_of s))
          (map ev_call (history (__init__ c1) e1))
       /\ (forall c t,
              In (CInitNow s c t) (map ev_call (history (__init__ c1) e1))
              <-> In (CInitNow s c t) (map ev_call (history (__init__ c2) e2)))
       /\ (InitByConfig -> attribute s self1 = attribute s self2).
Proof.
  split.
  - intros c t c' t' Hin1 Hin2.
    apply init_call_shape, init_calls_stage in Hin1.
    apply init_call_shape, init_calls_stage in Hin2.
    destruct Hin1 as [-> ->], Hin2 as [-> ->]. split; [now apply Hothers|reflexivity].
  - intros self1 self2 H1 H2.
    rewrite (init_calls_returned _ _ H1), (init_calls_returned _ _ H2).
    split; [|split].
    + now apply init_calls_stage.
    + intros c t. rewrite !init_calls_stage, (Hothers s Hs). reflexivity.
    + intros Hinit.
      destruct (init_attribute _ _ H1 s) as [es1 Ha1].
      destruct (init_attribute _ _ H2 s) as [es2 Ha2].
      rewrite (Hothers s Hs), (Hinit _ _ es1 es2), Ha2 in Ha1.
      now injection Ha1.
Qed.
End Construction.

Section Switches.
Context `{E : Externals}.

Lemma ignore_in_front (fs : list Filter) (w : Issued) :
  action_for (add_front (simple_item Aignore) fs) w = Aignore.
Proof. reflexivity. Qed.

Lemma genuine_leaves_switches (ev : Event) :
  LeavesSwitches -> genuine ev ->
  filters (ev_post ev) = filters (ev_pre ev)
  /\ grad_enabled (ev_post ev) = grad_enabled (ev_pre ev).
Proof.
  intros HL Hgen. specialize (HL (ev_call ev) (ev_pre ev)).
  rewrite Hgen in HL. exact HL.
Qed.

(** The switches at the start of every call of a run, and at its end, when
    the collaborators leave them alone. *)
Lemma run_switches (self : Pipeline) (input_path : PathLike) (e : Env X) :
  LeavesSwitches ->
  Forall (fun ev =>
            filters (ev_pre ev)
            = (if in_block (ev_call ev)
               then add_front (simple_item Aignore) (filters e)
               else filters e)
            /\ grad_enabled (ev_pre ev)
               = (if in_block (ev_call ev) then false else grad_enabled e))
         (history (run self input_path) e)
  /\ filters (final (run self input_path) e) = filters e
  /\ grad_enabled (final (run self input_path) e) = grad_enabled e.
Proof.
  intros HL. generalize (run_history_genuine self input_path e).
  run_code; intros Hgen.
  all: repeat match goal with
         | H : Forall genuine (_ :: _) |- _ =>
             let Hev := fresh "Hev" in
             inversion H as [|? ? Hev ?]; subst; clear H;
             apply (genuine_leaves_switches HL) in Hev;
             cbn [ev_pre ev_post] in Hev; destruct Hev
         end.
  all: cbn [set_filters set_hooks set_grad_enabled filters_mutated filters grad_enabled] in *.
  all: repeat split; [repeat (constructor; cbn; [split; congruence|]); constructor
                     | cbn; congruence ..].
Qed.

Lemma genuine_leaves_version (ev : Event) :
  LeavesVersion -> genuine ev ->
  filters_version (ev_post ev) = filters_version (ev_pre ev).
Proof.
  intros HL Hgen. specialize (HL (ev_call ev) (ev_pre ev)).
  rewrite Hgen in HL. exact HL.
Qed.

(** How often the filters have been marked as changed at the start of every
    call of a run, and at its end, when the collaborators do not mark
    them. *)
Lemma run_versions (self : Pipeline) (input_path : PathLike) (e : Env X) :
  LeavesVersion ->
  Forall (fun ev =>
            filters_version (ev_pre ev)
            = filters_version e + marks_before (ev_call ev))
         (history (run self input_path) e)
  /\ filters_version (final (run self input_path) e)
     = filters_version e
       + (if reached_block (history (run self input_path) e) then 3 else 0).
Proof.
  intros HL. generalize (run_history_genuine self input_path e).
  run_code; intros Hgen.
  all: repeat match goal with
         | H : Forall genuine (_ :: _) |- _ =>
             let Hev := fresh "Hev" in
             inversion H as [|? ? Hev ?]; subst; clear H;
             apply (genuine_leaves_version HL) in Hev;
             cbn [ev_pre ev_post] in Hev
         end.
  all: cbn [set_filters set_hooks set_grad_enabled filters_mutated filters_version] in *.
  all: split; [repeat (constructor; [cbn; lia|]); constructor | cbn; lia].
Qed.

Lemma genuine_leaves_hooks (ev : Event) :
  LeavesHooks -> genuine ev -> hooks (ev_post ev) = hooks (ev_pre ev).
Proof.
  intros HL Hgen. specialize (HL (ev_call ev) (ev_pre ev)).
  rewrite Hgen in HL. exact HL.
Qed.

(** The hooks at the start of every call of a run, and at its end, when
    the collaborators do not replace them. *)
Lemma run_hooks (self : Pipeline) (input_path : PathLike) (e : Env X) :
  LeavesHooks ->
  Forall (fun ev => hooks (ev_pre ev) = hooks e) (history (run self input_path) e)
  /\ hooks (final (run self input_path) e) = hooks e.
Proof.
  intros HL. generalize (run_history_genuine self input_path e).
  run_code; intros Hgen.
  all: repeat match goal with
         | H : Forall genuine (_ :: _) |- _ =>
             let Hev := fresh "Hev" in
             inversion H as [|? ? Hev ?]; subst; clear H;
             apply (genuine_leaves_hooks HL) in Hev;
             cbn [ev_pre ev_post] in Hev
         end.
  all: cbn [set_filters set_hooks set_grad_enabled filters_mutated hooks] in *.
  all: split; [repeat (constructor; [cbn; congruence|]); constructor
              | cbn; congruence].
Qed.
End Switches.

Section Warnings_in_run.
Context `{E : Externals}.


(** C5, as the code has it: when the layout predictor's [predict] call
    starts, the filter list ignores every warning, whatever its category
    and text; the collaborators leaving the filter list alone, every
    warning is ignored at the two calls inside the [with] block and treated
    as the caller's filter list says at every other call, and the run ends
    with the caller's filter list and grad mode.  What has been printed and
    the warning registries and the rest of the world are handed from call
    to call untouched, and leaving the block puts back the hooks that were
    installed when it was entered.  One effect of the run itself stays: a
    run that reaches the block has marked the warnings filters as changed
    three times (on entering the block, in [simplefilter] and on leaving the
    block), twice before the calls in the block and three times before
    every later call and at its end. *)
Theorem layout_block_ignores_every_warning
    (self : Pipeline) (input_path : PathLike) (e : Env X) :
  Forall (fun ev =>
            is_predict Slayout (ev_call ev) = true ->
            forall w, action_for (filters (ev_pre ev)) w = Aignore)
         (history (run self input_path) e)
  /\ threaded e (history (run self input_path) e) (final (run self input_path) e)
  /\ (LeavesSwitches ->
      Forall (fun ev =>
                forall w,
                  action_for (filters (ev_pre ev)) w
                  = (if in_block (ev_call ev)
                     then Aignore
                     else action_for (filters e) w))
             (history (run self input_path) e)
      /\ filters (final (run self input_path) e) = filters e
      /\ grad_enabled (final (run self input_path) e) = grad_enabled e)
  /\ (LeavesHooks ->
      Forall (fun ev => hooks (ev_pre ev) = hooks e)
             (history (run self input_path) e)
      /\ hooks (final (run self input_path) e) = hooks e)
  /\ (LeavesVersion ->
      Forall (fun ev =>
                filters_version (ev_pre ev)
                = filters_version e + marks_before (ev_call ev))
             (history (run self input_path) e)
      /\ filters_version (final (run self input_path) e)
         = filters_version e
           + (if reached_block (history (run self input_path) e) then 3 else 0)).
Proof.
  split; [|split; [|split; [|split]]].
  - run_code.
    all: repeat (constructor;
                 [cbn; intros Hcall w; try discriminate Hcall; reflexivity|]);
      constructor.
  - apply run_threaded.
  - intros HL. destruct (run_switches self input_path e HL) as (Hcalls & Hf & Hg).
    repeat split; auto.
    eapply Forall_impl; [|exact Hcalls].
    intros ev [Hev _] w. rewrite Hev.
    destruct (in_block (ev_call ev)); [apply ignore_in_front|reflexivity].
  - apply run_hooks.
  - apply run_versions.
Qed.
End Warnings_in_run.

Section Contracts.
Context `{E : Externals}.

(** Calls that keep every layer change no layer but their own. *)
Lemma additive_own_layer_only : Additive -> OwnLayerOnly.
Proof. intros Hadd c e name _ d v. apply Hadd. Qed.
End Contracts.

(** *** The small world keeps the contracts *)

Module RefFacts.
#[local] Existing Instance Ref.externals.

(** The entry of a list at an index, from what a function computes of it. *)
Lemma nth_error_pick {A B} (f : A -> B) (l : list A) (n : nat) (b : B) :
  option_map f (nth_error l n) = Some b ->
  exists a, nth_error l n = Some a /\ f a = b.
Proof.
  destruct (nth_error l n) as [a|]; cbn; intros H; [|discriminate H].
  injection H as <-. eauto.
Qed.

Lemma grows_refl (x : Ref.World) : Ref.grows x x.
Proof. intros d name v H; exact H. Qed.

Lemma tame_warn (w : Issued) : Ref.tame (warn w).
Proof.
  intros e. unfold warn.
  repeat match goal with
    | |- context [if ?b then _ else _] => destruct b
    | |- context [action_for ?fs ?w'] => destruct (action_for fs w')
    end; cbn; auto 7 using grows_refl.
Qed.

Lemma tame_issue (ws : list Issued) : Ref.tame (Ref.issue ws).
Proof.
  induction ws as [|w rest IH]; intros e; cbn.
  - auto using grows_refl.
  - destruct (tame_warn w e) as (Hf & Hg & Hv & Hh & Hx).
    destruct (warn w e) as [[x|[]] e1]; cbn in *; auto 7.
    destruct (IH e1) as (Hf1 & Hg1 & Hv1 & Hh1 & Hx1).
    repeat split; try congruence.
    intros d name v H. auto.
Qed.

Lemma tame_behave {A} (o : Ref.Obj) (k : Ext Ref.World A) : Ref.tame k -> Ref.tame (Ref.behave o k).
Proof.
  intros Hk e. unfold Ref.behave.
  destruct (tame_issue (Ref.warnings_of o) e) as (Hf & Hg & Hv & Hh & Hx).
  destruct (Ref.issue (Ref.warnings_of o) e) as [[x|[]] e1]; cbn in *; auto 7.
  destruct (Ref.failure_of o); cbn; auto 7.
  destruct (Hk e1) as (Hf1 & Hg1 & Hv1 & Hh1 & Hx1).
  repeat split; try congruence.
  intros d name v H. auto.
Qed.

Lemma assoc_app {A} (k : string) (l l' : list (string * A)) (v : A) :
  Ref.assoc k l = Some v -> Ref.assoc k (l ++ l') = Some v.
Proof.
  induction l as [|[k' v'] rest IH]; cbn; [discriminate|].
  destruct (String.eqb k k'); auto.
Qed.

Lemma assoc_fresh {A} (k : string) (l : list (string * A)) (v : A) :
  Ref.assoc k l = None -> Ref.assoc k (l ++ [(k, v)]) = Some v.
Proof.
  induction l as [|[k' v'] rest IH]; cbn.
  - now rewrite String.eqb_refl.
  - destruct (String.eqb k k'); [discriminate|auto].
Qed.

Lemma nth_error_set_nth {A} (l : list A) (n : nat) (a b : A) :
  nth_error l n = Some b -> nth_error (Ref.set_nth n a l) n = Some a.
Proof.
  revert n; induction l as [|c rest IH]; intros [|n]; cbn; try discriminate; auto.
Qed.

Lemma nth_error_set_nth_other {A} (l : list A) (n m : nat) (a : A) :
  n <> m -> nth_error (Ref.set_nth n a l) m = nth_error l m.
Proof.
  revert n m; induction l as [|c rest IH]; intros [|n] [|m] H; cbn; auto.
  contradiction.
Qed.

Lemma tame_attach (d : nat) (name : string) (v : Payload Ref.Images Ref.Annotations) :
  Ref.tame (Ref.attach d name v).
Proof.
  intros e. unfold Ref.attach.
  destruct (nth_error (Ref.docs (ext e)) d) as [ls|] eqn:Hd; cbn; auto using grows_refl.
  destruct (Ref.assoc name ls) eqn:Hname; cbn; auto using grows_refl.
  repeat split. intros d' name' v'. unfold Ref.layer; cbn.
  destruct (Nat.eq_dec d d') as [<-|Hne].
  - rewrite Hd, (nth_error_set_nth _ _ _ Hd). apply assoc_app.
  - now rewrite (nth_error_set_nth_other _ _ Hne).
Qed.

Lemma tame_parse (o : Ref.Obj) (path : string) : Ref.tame (Ref.parse o path).
Proof.
  apply tame_behave. intros e; cbn. repeat split.
  intros d name v. unfold Ref.layer; cbn.
  destruct (nth_error (Ref.docs (ext e)) d) as [ls|] eqn:Hd; [|discriminate].
  rewrite nth_error_app1; [now rewrite Hd|].
  apply nth_error_Some. congruence.
Qed.

Lemma tame_recorded {A} (f : Ext Ref.World A) (inj : A -> Value) :
  Ref.tame f -> Ref.tame (fun e => match f e with (r, e') => (as_value inj r, e') end).
Proof. intros H e. specialize (H e). destruct (f e). exact H. Qed.

Lemma tame_exec (c : Call) : Ref.tame (exec c).
Proof.
  destruct c; unfold exec; apply tame_recorded.
  - intros e. cbn [cached_path Ref.externals]. unfold Ref.cached_path.
    destruct (String.eqb (str p) ""); cbn; repeat split; try reflexivity;
      try (intros d name v H; exact H).
  - intros e. cbn [init_now Ref.externals]. unfold Ref.init_now.
    destruct (_target_ c); cbn; auto using grows_refl.
  - apply tame_parse.
  - apply tame_behave; intros e; cbn; auto using grows_refl.
  - apply tame_attach.
  - apply tame_behave; intros e; cbn.
    destruct (nth_error (Ref.docs (ext e)) d); cbn; auto using grows_refl.
  - apply tame_attach.
Qed.

Lemma additive : Additive.
Proof. intros c e. apply tame_exec. Qed.

Lemma leaves_switches : LeavesSwitches.
Proof. intros c e. destruct (tame_exec c e) as (Hf & Hg & _). auto. Qed.

Lemma leaves_version : LeavesVersion.
Proof. intros c e. now destruct (tame_exec c e) as (_ & _ & Hv & _). Qed.

Lemma leaves_hooks : LeavesHooks.
Proof. intros c e. now destruct (tame_exec c e) as (_ & _ & _ & Hh & _). Qed.

Lemma own_layer_only : OwnLayerOnly.
Proof. exact (additive_own_layer_only additive). Qed.

Lemma attach_reads_back (d : nat) (name : string)
    (v : Payload Ref.Images Ref.Annotations) (e e' : Env Ref.World) :
  Ref.attach d name v e = (inr tt, e') -> Ref.layer (ext e') d name = Some v.
Proof.
  unfold Ref.attach, Ref.layer.
  destruct (nth_error (Ref.docs (ext e)) d) as [ls|] eqn:Hd; [|discriminate].
  destruct (Ref.assoc name ls) eqn:Hname; [discriminate|].
  intros [= <-]; cbn.
  rewrite (nth_error_set_nth _ _ _ Hd). now apply assoc_fresh.
Qed.

Lemma attaching : Attaching.
Proof.
  split.
  - intros d im e e' H. exact (attach_reads_back d "images" (PImages im) e H).
  - intros d name a e e' H. exact (attach_reads_back d name (PAnnotations a) e H).
Qed.

Lemma init_by_config : InitByConfig.
Proof. intros c t e e'. cbn. unfold Ref.init_now. now destruct (_target_ c). Qed.

End RefFacts.

(** *** Runs in the small world *)

Section Runs.
#[local] Existing Instance Ref.externals.

(** The layout predictor and the word predictor of [Ref.chatty] issue the
    same warning; only the word predictor's is let through. *)
Example chatty_run_shows_one_warning :
  Ref.warnings_of (layout_pred Ref.chatty) = [Ref.runtime_warning]
  /\ Ref.warnings_of (words_pred Ref.chatty) = [Ref.runtime_warning]
  /\ shown (final (run Ref.chatty Ref.a_pdf) Ref.fresh) = [Ref.runtime_warning].
Proof. repeat split. Qed.

(** The parser, the word predictor and the sentence predictor of
    [Ref.repeating] issue the same warning from the same line, which the
    default action shows once: issued three times in a row it is shown
    once.  In a run the parser's is shown and the sentence predictor's is
    not, the word predictor's having been; but the word predictor's is
    shown again, since the [with] block in between has marked the filters as
    changed, so that the registry which held the warning is cleared. *)
Example warning_shown_again_after_block :
  shown (snd (Ref.issue [Ref.runtime_warning; Ref.runtime_warning;
                         Ref.runtime_warning] Ref.fresh))
  = [Ref.runtime_warning]
  /\ Ref.warnings_of (parser Ref.repeating) = [Ref.runtime_warning]
  /\ Ref.warnings_of (words_pred Ref.repeating) = [Ref.runtime_warning]
  /\ Ref.warnings_of (sents_pred Ref.repeating) = [Ref.runtime_warning]
  /\ shown (final (run Ref.repeating Ref.a_pdf) Ref.fresh)
     = [Ref.runtime_warning; Ref.runtime_warning].
Proof. repeat split; vm_compute; reflexivity. Qed.

(** A word predictor that raises: the run raises its exception, and the
    document, which carries three layers by then, is not returned. *)
Example broken_words_run_raises :
  outcome (run Ref.broken_words Ref.a_pdf) Ref.fresh
  = inl (Raised "RuntimeError" "no dictionary")
  /\ attached (history (run Ref.broken_words Ref.a_pdf) Ref.fresh) = ["images"; "blocks"].
Proof. split; reflexivity. Qed.

(** C5, as stated, fails: in a run of [Ref.chatty] from a fresh
    interpreter, the [RuntimeWarning] that the layout predictor issues is
    none of the known noisy warnings, the caller's filters would let it
    through, and it is dropped. *)
Lemma not_only_known_noisy_suppressed :
  ~ suppresses_only_known_noisy Ref.chatty Ref.a_pdf Ref.fresh.
Proof.
  intros Hspec.
  set (dropped := fun ev : Event =>
         is_predict Slayout (ev_call ev)
         && match action_for (filters (ev_pre ev)) Ref.runtime_warning with
            | Aignore => true
            | _ => false
            end).
  assert (Hex : existsb dropped (history (run Ref.chatty Ref.a_pdf) Ref.fresh) = true)
    by (vm_compute; reflexivity).
  apply existsb_exists in Hex. destruct Hex as (ev & Hin & Hdropped).
  apply andb_true_iff in Hdropped. destruct Hdropped as [_ Hignored].
  destruct (Hspec ev Ref.runtime_warning Hin) as [Hknown _].
  - destruct (action_for (filters (ev_pre ev)) Ref.runtime_warning);
      try discriminate Hignored; reflexivity.
  - discriminate.
  - discriminate Hknown.
Qed.

(** C6, as stated, fails: a layout entry that names no [_target_], every
    other entry as before.  [sp.init.now] raises on it, so that this
    construction stops after three calls, and the word predictor, which
    the first construction builds, is never built. *)
Lemma override_can_stop_construction :
  (forall s, s <> Slayout ->
      PipelineConfig.step s (Ref.config_of "lp://efficientdet/PubLayNet")
      = PipelineConfig.step s (Ref.untargeted_layout "lp://efficientdet/PubLayNet"))
  /\ outcome (__init__ (Ref.config_of "lp://efficientdet/PubLayNet")) Ref.fresh
     = inr (Ref.built_from "lp://efficientdet/PubLayNet")
  /\ outcome (__init__ (Ref.untargeted_layout "lp://efficientdet/PubLayNet")) Ref.fresh
     = inl (Raised "MissingMandatoryValue" "_target_")
  /\ ~ override_affects_no_other_stage Slayout
         (Ref.config_of "lp://efficientdet/PubLayNet")
         (Ref.untargeted_layout "lp://efficientdet/PubLayNet") Ref.fresh.
Proof.
  split; [|split; [reflexivity|split; [reflexivity|]]].
  - intros s Hs. destruct s; try reflexivity. now destruct Hs.
  - intros Hspec.
    assert (Hs : Swords <> Slayout) by discriminate.
    destruct (Hspec Swords Hs (Ref.plain ExtendedDictionaryWordPredictor)
                    ExtendedDictionaryWordPredictor) as [Hto _].
    assert (Hin : In (CInitNow Swords (Ref.plain ExtendedDictionaryWordPredictor)
                               ExtendedDictionaryWordPredictor)
                     (map ev_call
                          (history (__init__ (Ref.config_of "lp://efficientdet/PubLayNet"))
                                   Ref.fresh))).
    { cbn. do 3 right. left. reflexivity. }
    specialize (Hto Hin). cbn in Hto.
    destruct Hto as [Hto|[Hto|[Hto|[]]]]; discriminate Hto.
Qed.

Lemma run_returns_annotated_document_witness :
  Additive /\ Attaching
  /\ (exists doc, outcome (run Ref.quiet Ref.a_pdf) Ref.fresh = inr doc)
  /\ (exists typed_sents,
         layer (ext (final (run Ref.quiet Ref.a_pdf) Ref.fresh)) 0 "typed_sents"
         = Some (PAnnotations typed_sents)).
Proof.
  split; [exact RefFacts.additive|]. split; [exact RefFacts.attaching|].
  pose proof (run_returns_annotated_document
                RefFacts.additive RefFacts.attaching Ref.quiet Ref.a_pdf Ref.fresh)
    as [Hreturns Hlayers].
  split.
  - apply Hreturns. reflexivity.
  - destruct (Hlayers 0 eq_refl)
      as (p & images & blocks & words & sents & typed_blocks & typed_sents & H).
    exists typed_sents. apply H.
Defined.

Lemma layers_attached_in_order_witness :
  outcome (run Ref.quiet Ref.a_pdf) Ref.fresh = inr 0
  /\ attached (history (run Ref.quiet Ref.a_pdf) Ref.fresh) = layer_order
  /\ OwnLayerOnly /\ Attaching
  /\ exists ev,
       nth_error (history (run Ref.quiet Ref.a_pdf) Ref.fresh) 5 = Some ev
       /\ ev_call ev = CAnnotate 0 "blocks" ["tokens"; "images"]
       /\ layer (ext (final (run Ref.quiet Ref.a_pdf) Ref.fresh)) 0 "blocks"
          = Some (PAnnotations ["tokens"; "images"]).
Proof.
  pose proof (layers_attached_in_order Ref.quiet Ref.a_pdf Ref.fresh)
    as (_ & Hall & _ & _ & _ & Hkept).
  split; [reflexivity|]. split; [exact (Hall 0 eq_refl)|].
  split; [exact RefFacts.own_layer_only|]. split; [exact RefFacts.attaching|].
  destruct (@RefFacts.nth_error_pick (@Event Ref.externals) _ (fun ev => (ev_call ev, succeeded ev))
              (history (run Ref.quiet Ref.a_pdf) Ref.fresh) 5
              (@CAnnotate Ref.externals 0 "blocks" ["tokens"; "images"], true))
    as (ev & Hev & Hpicked); [reflexivity|].
  injection Hpicked as Hcall Hok.
  exists ev. split; [exact Hev|]. split; [exact Hcall|].
  destruct (Hkept RefFacts.own_layer_only RefFacts.attaching 5 ev Hev Hok) as [Hend _].
  unfold carries in Hend. rewrite Hcall in Hend. exact Hend.
Defined.


Lemma layers_only_grow_witness :
  OwnLayerOnly /\ Attaching
  /\ attach_names (history (run Ref.quiet Ref.a_pdf) Ref.fresh) = layer_order
  /\ (forall i ev,
         nth_error (history (run Ref.quiet Ref.a_pdf) Ref.fresh) i = Some ev ->
         succeeded ev = true ->
         Forall (fun p => carries (ext p) ev)
                (points (ev_post ev)
                        (skipn (S i) (history (run Ref.quiet Ref.a_pdf) Ref.fresh))
                        (final (run Ref.quiet Ref.a_pdf) Ref.fresh)))
  /\ (forall name,
         ~ In name layer_order ->
         StronglySorted (keeps_named name)
           (points Ref.fresh (history (run Ref.quiet Ref.a_pdf) Ref.fresh)
                   (final (run Ref.quiet Ref.a_pdf) Ref.fresh)))
  /\ NoDup (attach_names (history (run Ref.quiet Ref.a_pdf) Ref.fresh))
  /\ incl (attach_names (history (run Ref.quiet Ref.a_pdf) Ref.fresh)) layer_order.
Proof.
  split; [exact RefFacts.own_layer_only|]. split; [exact RefFacts.attaching|].
  split; [reflexivity|].
  exact (layers_only_grow RefFacts.own_layer_only RefFacts.attaching
           Ref.quiet Ref.a_pdf Ref.fresh).
Defined.

Lemma rasterize_at_72_dpi_witness :
  params (rasterizer Ref.high_dpi) = [("dpi", "300")]
  /\ outcome (run Ref.high_dpi Ref.a_pdf) Ref.fresh = inr 0
  /\ layer (ext (final (run Ref.high_dpi Ref.a_pdf) Ref.fresh)) 0 "images"
     = Some (PImages ("/cache/a.pdf", 72%Z))
  /\ exists p,
       map ev_call (filter (fun ev => is_rasterize (ev_call ev))
                           (history (run Ref.high_dpi Ref.a_pdf) Ref.fresh))
       = [CRasterize (rasterizer Ref.high_dpi) (str (Path p)) 72].
Proof.
  split; [reflexivity|]. split; [reflexivity|]. split; [reflexivity|].
  exact (proj2 (proj2 (proj2 (proj2
           (rasterize_at_72_dpi Ref.high_dpi Ref.a_pdf Ref.fresh)))) 0 eq_refl).
Defined.


Lemma layout_block_ignores_every_warning_witness :
  LeavesSwitches /\ LeavesHooks /\ LeavesVersion
  /\ (Forall (fun ev =>
                forall w,
                  action_for (filters (ev_pre ev)) w
                  = (if in_block (ev_call ev)
                     then Aignore
                     else action_for (filters Ref.fresh) w))
             (history (run Ref.chatty Ref.a_pdf) Ref.fresh)
      /\ filters (final (run Ref.chatty Ref.a_pdf) Ref.fresh) = filters Ref.fresh
      /\ grad_enabled (final (run Ref.chatty Ref.a_pdf) Ref.fresh)
         = grad_enabled Ref.fresh)
  /\ hooks (final (run Ref.chatty Ref.a_pdf) Ref.fresh) = hooks Ref.fresh
  /\ filters_version Ref.fresh = 0
  /\ filters_version (final (run Ref.chatty Ref.a_pdf) Ref.fresh) = 3.
Proof.
  pose proof (layout_block_ignores_every_warning Ref.chatty Ref.a_pdf Ref.fresh)
    as (_ & _ & Hswitches & Hhooks & Hversion).
  split; [exact RefFacts.leaves_switches|]. split; [exact RefFacts.leaves_hooks|].
  split; [exact RefFacts.leaves_version|].
  split; [exact (Hswitches RefFacts.leaves_switches)|].
  split; [exact (proj2 (Hhooks RefFacts.leaves_hooks))|]. split; [reflexivity|].
  exact (proj2 (Hversion RefFacts.leaves_version)).
Defined.

Lemma override_leaves_other_stages_witness :
  InitByConfig
  /\ (forall s, s <> Slayout ->
        PipelineConfig.step s (Ref.config_of "lp://efficientdet/PubLayNet")
        = PipelineConfig.step s (Ref.config_of "lp://faster_rcnn/PubLayNet"))
  /\ outcome (__init__ (Ref.config_of "lp://efficientdet/PubLayNet")) Ref.fresh
     = inr (Ref.built_from "lp://efficientdet/PubLayNet")
  /\ outcome (__init__ (Ref.config_of "lp://faster_rcnn/PubLayNet")) Ref.fresh
     = inr (Ref.built_from "lp://faster_rcnn/PubLayNet")
  /\ Swords <> Slayout
  /\ In (CInitNow Swords (Ref.plain ExtendedDictionaryWordPredictor)
                  ExtendedDictionaryWordPredictor)
        (map ev_call
             (history (__init__ (Ref.config_of "lp://faster_rcnn/PubLayNet")) Ref.fresh))
  /\ attribute Swords (Ref.built_from "lp://efficientdet/PubLayNet")
     = attribute Swords (Ref.built_from "lp://faster_rcnn/PubLayNet").
Proof.
  assert (Hothers : forall s, s <> Slayout ->
            PipelineConfig.step s (Ref.config_of "lp://efficientdet/PubLayNet")
            = PipelineConfig.step s (Ref.config_of "lp://faster_rcnn/PubLayNet")).
  { intros s Hs. destruct s; try reflexivity. now destruct Hs. }
  assert (Hs : Swords <> Slayout) by discriminate.
  destruct (proj2 (@override_leaves_other_stages
                     Ref.externals Slayout
                     (Ref.config_of "lp://efficientdet/PubLayNet")
                     (Ref.config_of "lp://faster_rcnn/PubLayNet")
                     Hothers Ref.fresh Ref.fresh Swords Hs)
                  (Ref.built_from "lp://efficientdet/PubLayNet")
                  (Ref.built_from "lp://faster_rcnn/PubLayNet")
                  eq_refl eq_refl)
    as (Hmade & Hsame & Hattribute).
  split; [exact RefFacts.init_by_config|]. split; [exact Hothers|].
  split; [reflexivity|]. split; [reflexivity|]. split; [exact Hs|].
  split; [exact (proj1 (Hsame _ _) Hmade)|].
  exact (Hattribute RefFacts.init_by_config).
Defined.

Lemma pipeline_construction_witness :
  Ref.layout_given Slayout = Some Ref.own_layout
  /\ Ref.layout_given Swords = None
  /\ exists defaults,
       outcome PipelineConfig_defaults Ref.fresh = inr defaults
       /\ PipelineConfig.layout defaults
          = mkStep (Some (Ref.Target_to_string LayoutParserPredictor_from_pretrained))
                   [("config_path", "lp://efficientdet/PubLayNet")]
       /\ PipelineConfig.layout (PipelineConfig_with defaults Ref.layout_given)
          = Ref.own_layout
       /\ PipelineConfig.words (PipelineConfig_with defaults Ref.layout_given)
          = PipelineConfig.words defaults
       /\ exists self,
            outcome (__init__ (PipelineConfig_with defaults Ref.layout_given)) Ref.fresh
            = inr self
            /\ In (CInitNow Slayout Ref.own_layout LayoutParserPredictor, inr (VObj (layout_pred self)))
                  (map call_and_result
                       (history (__init__ (PipelineConfig_with defaults Ref.layout_given))
                                Ref.fresh)).
Proof.
  split; [reflexivity|]. split; [reflexivity|].
  destruct (outcome (@PipelineConfig_defaults Ref.externals) Ref.fresh)
    as [x|defaults] eqn:Hd;
    [discriminate Hd|].
  exists defaults. split; [reflexivity|].
  destruct (proj2 (proj2 (@pipeline_construction Ref.externals Ref.fresh
                            Ref.layout_given Ref.fresh))
                  defaults Hd)
    as [(dictionary & _ & Hdefaults) (Hgiven & Hdefault & Hreturns & _ & _ & Hscript)].
  split; [rewrite Hdefaults; reflexivity|].
  split; [exact (Hgiven Slayout Ref.own_layout eq_refl)|].
  split; [exact (Hdefault Swords eq_refl)|].
  destruct (proj2 Hreturns) as [self Hself].
  { injection Hd as <-. reflexivity. }
  exists self. split; [exact Hself|].
  change (PipelineConfig_with defaults Ref.layout_given)
    with (PipelineConfig_init defaults
            (Ref.layout_given Sparser) (Ref.layout_given Srasterizer)
            (Ref.layout_given Slayout) (Ref.layout_given Ssents)
            (Ref.layout_given Swords) (Ref.layout_given Sblocks_type)
            (Ref.layout_given Ssents_type)).
  rewrite (Hscript self Hself). cbn. do 2 right. left. reflexivity.
Defined.
End Runs.

(** ** Construction and runs, call by call *)

Section Construction_calls.
Context `{E : Externals}.


(** X2: a construction does nothing to the warnings filter list or to the
    grad mode itself: when [sp.init.now] leaves them alone, every one of its
    calls starts with the caller's filter list and grad mode, so that a
    warning issued while a stage is built is treated as the caller's filters
    say, and the construction ends with them, whether it returns or raises. *)
Theorem init_leaves_switches (Hleaves : LeavesSwitches)
    (config : PipelineConfig.t) (e : Env X) :
  Forall (fun ev =>
            filters (ev_pre ev) = filters e
            /\ grad_enabled (ev_pre ev) = grad_enabled e)
         (history (__init__ config) e)
  /\ filters (final (__init__ config) e) = filters e
  /\ grad_enabled (final (__init__ config) e) = grad_enabled e.
Proof.
  generalize (init_history_genuine config e).
  run_code; intros Hgen.
  all: repeat match goal with
         | H : Forall genuine (_ :: _) |- _ =>
             let Hev := fresh "Hev" in
             inversion H as [|? ? Hev ?]; subst; clear H;
             apply (genuine_leaves_switches Hleaves) in Hev;
             cbn [ev_pre ev_post] in Hev; destruct Hev
         end.
  all: repeat split; [repeat (constructor; cbn; [split; congruence|]); constructor
                     | congruence ..].
Qed.

(** X3: two configurations that differ at most in the entry of stage [k],
    built from the same state: the stages that come before [k] in the
    build order are built by the same calls, in the same states and with the
    same results, whatever the entry of [k] is and whether or not either
    construction returns. *)
Theorem override_keeps_earlier_calls
    (k : Stage) (c1 c2 : PipelineConfig.t)
    (Hothers : forall s, s <> k -> PipelineConfig.step s c1 = PipelineConfig.step s c2)
    (e : Env X) :
  firstn (built_before k) (history (__init__ c1) e)
  = firstn (built_before k) (history (__init__ c2) e).
Proof.
  destruct c1 as [p1 r1 l1 s1 w1 b1 t1], c2 as [p2 r2 l2 s2 w2 b2 t2].
  pose proof (Hothers Sparser) as Hp; pose proof (Hothers Srasterizer) as Hr;
    pose proof (Hothers Slayout) as Hl; pose proof (Hothers Swords) as Hw;
    pose proof (Hothers Ssents) as Hs; pose proof (Hothers Sblocks_type) as Hb;
    pose proof (Hothers Ssents_type) as Ht; cbn in Hp, Hr, Hl, Hw, Hs, Hb, Ht.
  clear Hothers.
  destruct k; unfold built_before; cbn [index_in build_order]; cbn [Stage_eq_dec Stage_rec Stage_rect].
  all: try (specialize (Hp ltac:(discriminate)); subst p2).
  all: try (specialize (Hr ltac:(discriminate)); subst r2).
  all: try (specialize (Hl ltac:(discriminate)); subst l2).
  all: try (specialize (Hw ltac:(discriminate)); subst w2).
  all: try (specialize (Hs ltac:(discriminate)); subst s2).
  all: try (specialize (Hb ltac:(discriminate)); subst b2).
  all: try (specialize (Ht ltac:(discriminate)); subst t2).
  all: clear; unfold history, __init__;
    cbn [PipelineConfig.parser PipelineConfig.rasterizer PipelineConfig.layout
         PipelineConfig.sents PipelineConfig.words PipelineConfig.blocks_type
         PipelineConfig.sents_type].
  all: run_code; reflexivity.
Qed.
End Construction_calls.

Section Class_body.
Context `{E : Externals}.

(** X4: the class body raises exactly when fetching the dictionary raises,
    with that exception, or when the dictionary was fetched and [@dataclass]
    refuses a [PipelineStepConfig] instance as a default, with the exception
    of [@dataclass]; when it returns, every default entry names its
    [_target_], so that a configuration has an entry without one only where
    the caller gave such an entry. *)
Theorem class_body_defaults_complete (e0 : Env X) :
  (forall x,
      outcome PipelineConfig_defaults e0 = inl x
      <-> fst (cached_path (AsStr words_url) e0) = inl x
          \/ (exists p,
                 fst (cached_path (AsStr words_url) e0) = inr p
                 /\ dataclass_refusal = Some x))
  /\ ((exists defaults, outcome PipelineConfig_defaults e0 = inr defaults)
      <-> (exists p, fst (cached_path (AsStr words_url) e0) = inr p)
          /\ dataclass_refusal = None)
  /\ forall defaults,
       outcome PipelineConfig_defaults e0 = inr defaults ->
       forall given s,
         _target_ (PipelineConfig.step s (PipelineConfig_with defaults given)) = None ->
         exists c, given s = Some c /\ _target_ c = None.
Proof.
  split; [|split].
  - intros x. run_code; cbn; split; intros H.
    all: first [ destruct H as [H|[? [? ?]]]; congruence
               | left; congruence
               | right; eexists; split; [reflexivity|congruence] ].
  - run_code; cbn; split; intros H.
    all: first [ destruct H as [? H]; discriminate H
               | destruct H as [[? H] H']; first [discriminate H|discriminate H']
               | split; eauto
               | eauto ].
  - intros defaults. run_code; intros Hd; try discriminate Hd.
    injection Hd as <-. intros given s.
    unfold PipelineConfig_with, PipelineConfig_init.
    destruct s; cbn; destruct (given _) as [c|]; cbn; intros Hnone;
      try discriminate Hnone; exists c; auto.
Qed.
End Class_body.

Section Run_calls.
Context `{E : Externals}.

(** X5: in every run, returning or raising, an [annotate] call comes right
    after the [predict] call of the stage that owns its layer name, made on
    the same document, and attaches what that call returned; and
    [annotate_images] comes right after the [rasterize] call and attaches
    the images it returned.  Nothing is attached that a stage has not just
    computed. *)
Theorem attach_follows_predict
    (self : Pipeline) (input_path : PathLike) (e : Env X)
    (i : nat) (ev : Event)
    (Hev : nth_error (history (run self input_path) e) i = Some ev) :
  match ev_call ev with
  | CAnnotate d name a =>
      exists j ev' s,
        i = S j
        /\ nth_error (history (run self input_path) e) j = Some ev'
        /\ ev_call ev' = CPredict s (attribute s self) d
        /\ ev_result ev' = inr (VAnnotations a)
        /\ layer_of s = Some name
  | CAnnotateImages d im =>
      exists j ev' path,
        i = S j
        /\ nth_error (history (run self input_path) e) j = Some ev'
        /\ ev_call ev' = CRasterize (rasterizer self) path 72
        /\ ev_result ev' = inr (VImages im)
  | _ => True
  end.
Proof.
  revert i Hev. run_code; intros i Hev.
  all: repeat (destruct i as [|i];
               [ injection Hev as <-; cbn; try exact I;
                 do 2 eexists;
                 first [ eexists; repeat split; reflexivity
                       | exists Slayout; repeat split; reflexivity
                       | exists Swords; repeat split; reflexivity
                       | exists Ssents; repeat split; reflexivity
                       | exists Sblocks_type; repeat split; reflexivity
                       | exists Ssents_type; repeat split; reflexivity ]
               | cbn in Hev ]).
  all: destruct i; discriminate Hev.
Qed.

(** X6: a run works on one document: every [annotate_images], [predict] and
    [annotate] call of a run is made on the document that its [parse] call
    returned, and that document is the one a run returns. *)
Theorem one_document (self : Pipeline) (input_path : PathLike) (e : Env X) :
  Forall (fun ev =>
            forall d,
              document_of (ev_call ev) = Some d ->
              exists ev_p path,
                nth_error (history (run self input_path) e) 1 = Some ev_p
                /\ ev_call ev_p = CParse (parser self) path
                /\ ev_result ev_p = inr (VDocument d))
         (history (run self input_path) e)
  /\ forall doc,
       outcome (run self input_path) e = inr doc ->
       exists ev_p path,
         nth_error (history (run self input_path) e) 1 = Some ev_p
         /\ ev_call ev_p = CParse (parser self) path
         /\ ev_result ev_p = inr (VDocument doc).
Proof.
  split.
  - run_code.
    all: repeat (constructor;
                 [ cbn; intros d Hd; try discriminate Hd; injection Hd as <-;
                   do 2 eexists; repeat split; reflexivity
                 | ]); constructor.
  - run_code; intros d Hd; try discriminate Hd. injection Hd as <-.
    do 2 eexists; repeat split; reflexivity.
Qed.

(** X7: a run starts by resolving the input path, in the caller's state,
    and the input path goes nowhere else: the path that [parse] and
    [rasterize] are given is the text of the path that [cached_path]
    returned. *)
Theorem paths_come_from_cached_path
    (self : Pipeline) (input_path : PathLike) (e : Env X) :
  (exists ev rest,
      history (run self input_path) e = ev :: rest
      /\ ev_call ev = CCachedPath input_path
      /\ ev_pre ev = e)
  /\ Forall (fun ev =>
               forall path,
                 path_of (ev_call ev) = Some path ->
                 exists ev_c p,
                   nth_error (history (run self input_path) e) 0 = Some ev_c
                   /\ ev_result ev_c = inr (VPath p)
                   /\ path = str (Path p))
            (history (run self input_path) e).
Proof.
  split.
  - run_code; do 2 eexists; repeat split; reflexivity.
  - run_code.
    all: repeat (constructor;
                 [ cbn; intros path Hpath; try discriminate Hpath;
                   injection Hpath as <-; do 2 eexists; repeat split; reflexivity
                 | ]); constructor.
Qed.

End Run_calls.

(** *** The further properties in the small world *)

Section More_runs.
#[local] Existing Instance Ref.externals.

Lemma init_leaves_switches_witness :
  LeavesSwitches
  /\ filters (final (__init__ (Ref.config_of "lp://efficientdet/PubLayNet")) Ref.fresh)
     = filters Ref.fresh
  /\ grad_enabled (final (__init__ (Ref.config_of "lp://efficientdet/PubLayNet")) Ref.fresh)
     = grad_enabled Ref.fresh.
Proof.
  split; [exact RefFacts.leaves_switches|].
  exact (proj2 (init_leaves_switches RefFacts.leaves_switches
                  (Ref.config_of "lp://efficientdet/PubLayNet") Ref.fresh)).
Defined.

Lemma override_keeps_earlier_calls_witness :
  (forall s, s <> Slayout ->
      PipelineConfig.step s (Ref.config_of "lp://efficientdet/PubLayNet")
      = PipelineConfig.step s (Ref.config_of "lp://faster_rcnn/PubLayNet"))
  /\ built_before Slayout = 2
  /\ firstn 2 (history (__init__ (Ref.config_of "lp://efficientdet/PubLayNet")) Ref.fresh)
     = firstn 2 (history (__init__ (Ref.config_of "lp://faster_rcnn/PubLayNet")) Ref.fresh).
Proof.
  assert (Hothers : forall s, s <> Slayout ->
            PipelineConfig.step s (Ref.config_of "lp://efficientdet/PubLayNet")
            = PipelineConfig.step s (Ref.config_of "lp://faster_rcnn/PubLayNet")).
  { intros s Hs. destruct s; try reflexivity. now destruct Hs. }
  split; [exact Hothers|]. split; [reflexivity|].
  exact (@override_keeps_earlier_calls Ref.externals Slayout
           (Ref.config_of "lp://efficientdet/PubLayNet")
           (Ref.config_of "lp://faster_rcnn/PubLayNet") Hothers Ref.fresh).
Defined.

Lemma attach_follows_predict_witness :
  exists ev,
    nth_error (history (run Ref.quiet Ref.a_pdf) Ref.fresh) 5 = Some ev
    /\ ev_call ev = CAnnotate 0 "blocks" ["tokens"; "images"]
    /\ exists j ev' s,
         5 = S j
         /\ nth_error (history (run Ref.quiet Ref.a_pdf) Ref.fresh) j = Some ev'
         /\ ev_call ev' = CPredict s (attribute s Ref.quiet) 0
         /\ ev_result ev' = inr (VAnnotations ["tokens"; "images"])
         /\ layer_of s = Some "blocks".
Proof.
  destruct (@RefFacts.nth_error_pick (@Event Ref.externals) _ ev_call
              (history (run Ref.quiet Ref.a_pdf) Ref.fresh) 5
              (@CAnnotate Ref.externals 0 "blocks" ["tokens"; "images"]))
    as (ev & Hev & Hcall); [reflexivity|].
  exists ev. split; [exact Hev|]. split; [exact Hcall|].
  pose proof (@attach_follows_predict Ref.externals Ref.quiet Ref.a_pdf Ref.fresh 5 ev Hev)
    as Hfollows.
  rewrite Hcall in Hfollows. exact Hfollows.
Defined.

End More_runs.
